(** * Node-agent reconciliation core of azure-container-networking

    A shallow embedding of
    - the IP configuration state classifier (package [filter]),
    - the CNI state converter (package [cni], [cniStateToPodInfoByIP]),
    - the request controller ([kubecontroller]) and the multi-tenant
      controller ([multitenantoperator]),
    together with the properties stated about them.

    Go maps are [gmap]s.  A [for k, v := range m] loop visits the entries
    of [m] in an order the language leaves open, so every function that
    ranges over a map takes the visiting order as an extra argument and
    the theorems quantify over all orders that enumerate the map.

    The controller methods are computations in a small state-and-trace
    monad: the state is the controller struct, the trace lists the calls
    to the mutex, the clients, the CNS client and the manager, and a call
    ends by returning, by [os.Exit] or by a panic.  The collaborators are
    given by what their calls answer.  Logging is left out. *)

From Stdlib Require Import ZArith.
From stdpp Require Import gmap strings list fin_maps.

Open Scope string_scope.
Open Scope list_scope.
Open Scope stdpp_scope.

(** ** Go preliminaries *)

(** [order] is one possible visiting order of a [range] loop over [m]. *)
Definition range_of {V} (m : gmap string V) (order : list (string * V)) : Prop :=
  order ≡ₚ map_to_list m.

(** ** Package filter: the IP configuration state classifier *)

Module Filter.

(** Modelled from the spec: [cns.IPConfigState] is a string type and
    [cns.IPConfigurationStatus] carries an [ID] and a [State]; their
    declarations (package [cns]) are not among the sources.  The four
    lifecycle states are the constants the classifier is keyed by. *)
Definition IPConfigState := string.
Definition Allocated : IPConfigState := "Allocated".
Definition Available : IPConfigState := "Available".
Definition PendingProgramming : IPConfigState := "PendingProgramming".
Definition PendingRelease : IPConfigState := "PendingRelease".

Record IPConfigurationStatus := mkIPConfigurationStatus {
  ID : string;
  State : IPConfigState
}.

#[global] Instance IPConfigurationStatus_eq_dec : EqDecision IPConfigurationStatus.
Proof. solve_decision. Defined.

Definition IPConfigStatePredicate := IPConfigurationStatus → bool.

(* ipConfigStatePredicate returns a predicate that compares the State of
   an IPConfigurationStatus to the passed state. *)
Definition ipConfigStatePredicate (test : IPConfigState) : IPConfigStatePredicate :=
  fun ipconfig => bool_decide (State ipconfig = test).

Definition filters : gmap string IPConfigStatePredicate :=
  <[Allocated := ipConfigStatePredicate Allocated]>
  (<[Available := ipConfigStatePredicate Available]>
  (<[PendingProgramming := ipConfigStatePredicate PendingProgramming]>
  (<[PendingRelease := ipConfigStatePredicate PendingRelease]> ∅))).

(* Indexing a Go map yields the zero value (a nil func) on a missing key:
   [None] here. *)
Definition StateAllocated := filters !! Allocated.
Definition StateAvailable := filters !! Available.
Definition StatePendingProgramming := filters !! PendingProgramming.
Definition StatePendingRelease := filters !! PendingRelease.

Fixpoint matchesAnyIPConfigState (in_ : IPConfigurationStatus)
    (predicates : list IPConfigStatePredicate) : bool :=
  match predicates with
  | [] => false
  | p :: rest => if p in_ then true else matchesAnyIPConfigState in_ rest
  end.

(* One iteration of the loop of MatchAnyIPConfigState. *)
Definition match_step (predicates : list IPConfigStatePredicate)
    (out : list IPConfigurationStatus) (kv : string * IPConfigurationStatus) :=
  if matchesAnyIPConfigState kv.2 predicates then out ++ [kv.2] else out.

(* MatchAnyIPConfigState filters the passed IPConfigurationStatus map
   according to the passed predicates and returns the matching values. *)
Definition MatchAnyIPConfigState (in_ : gmap string IPConfigurationStatus)
    (order : list (string * IPConfigurationStatus))
    (predicates : list IPConfigStatePredicate) : list IPConfigurationStatus :=
  let out := [] in
  if Nat.eqb (length predicates) 0 || Nat.eqb (size in_) 0 then out
  else fold_left (match_step predicates) order out.

(* One iteration of the loop of PredicatesForStates. *)
Definition predicates_step (predicates : list IPConfigStatePredicate)
    (state : IPConfigState) :=
  match filters !! state with
  | Some f => predicates ++ [f]
  | None => predicates
  end.

(* PredicatesForStates returns the predicates that map to the input states. *)
Definition PredicatesForStates (states : list IPConfigState)
    : list IPConfigStatePredicate :=
  fold_left predicates_step states [].

(** The states the classifier recognises. *)
Definition known (state : IPConfigState) : bool :=
  bool_decide (state ∈ [Allocated; Available; PendingProgramming; PendingRelease]).

End Filter.

(** ** Outcomes of a Go call *)

(** A call returns, or ends the process with [os.Exit], or panics (a nil
    dereference, an index out of range, unlocking a free mutex), or blocks
    for ever on a mutex that is already held. *)
Inductive outcome (A : Type) : Type :=
  | Returns (a : A)
  | Exits (code : Z)
  | Panics
  | Blocks.
Arguments Returns {A} a.
Arguments Exits {A} code.
Arguments Panics {A}.
Arguments Blocks {A}.

(** ** Package cni: the CNI state converter *)

Module CNI.

(** Modelled from the spec: [cns.NewPodInfo] (package [cns]) is not among
    the sources; a pod info is kept as the record of the four arguments it
    is built from, of which the spec names [PodName] and [PodNamespace]. *)
Record PodInfo := NewPodInfo {
  PodInfraContainerID : string;
  PodInterfaceID : string;
  PodName : string;
  PodNamespace : string
}.

Section State.

(* net.IP is a byte slice; its String method belongs to the Go standard
   library and is taken as given. *)
Variable IP_String : list Z → string.

(* net.IPNet *)
Record IPNet := mkIPNet {
  IP : list Z;
  Mask : list Z
}.

(* api.PodNetworkInterfaceInfo *)
Record PodNetworkInterfaceInfo := mkPodNetworkInterfaceInfo {
  PodName_ : string;
  PodNamespace_ : string;
  PodEndpointId : string;
  ContainerID : string;
  IPAddresses : list IPNet
}.

(* api.State *)
Record State := mkState {
  ContainerInterfaces : gmap string PodNetworkInterfaceInfo
}.

(* The loop of cniStateToPodInfoByIP over the entries still to visit.
   [endpoint.IPAddresses[0]] panics on an empty slice. *)
Fixpoint cni_loop (rest : list (string * PodNetworkInterfaceInfo))
    (podInfoByIP : gmap string PodInfo) : outcome (gmap string PodInfo) :=
  match rest with
  | [] => Returns podInfoByIP
  | (_, endpoint) :: rest' =>
      match IPAddresses endpoint with
      | [] => Panics
      | first :: _ =>
          cni_loop rest'
            (<[IP_String (IP first) :=
                 NewPodInfo "" (PodEndpointId endpoint) (PodName_ endpoint)
                            (PodNamespace_ endpoint)]> podInfoByIP)
      end
  end.

(* cniStateToPodInfoByIP converts an AzureCNIState dumped from a CNI exec
   into a PodInfo map, using the first endpoint IP as the key in the map.
   [state] is a pointer: [None] is nil. *)
Definition cniStateToPodInfoByIP (state : option State)
    (order : list (string * PodNetworkInterfaceInfo))
    : outcome (gmap string PodInfo) :=
  match state with
  | None => Panics
  | Some _ => cni_loop order ∅
  end.

End State.

End CNI.

(** ** The Kubernetes API errors the controllers inspect *)

(** [k8s.io/apimachinery] is a dependency of the repository.  Of a status
    only the reason and the details are inspected; [Details] is a pointer
    in Go, [None] is nil. *)
Module metav1.

Definition StatusReason := string.
Definition StatusReasonUnknown : StatusReason := "".
Definition StatusReasonNotFound : StatusReason := "NotFound".

Definition CauseType := string.
Definition CauseTypeUnexpectedServerResponse : CauseType :=
  "UnexpectedServerResponse".

Record StatusCause := mkStatusCause {
  Type_ : CauseType;
  Message : string
}.

Record StatusDetails := mkStatusDetails {
  Causes : list StatusCause
}.

Record Status := mkStatus {
  Reason : StatusReason;
  Details : option StatusDetails
}.

End metav1.

(** A Go [error] value: a [*apierrors.StatusError] or an error of any
    other dynamic type; the nil error is [None : option error]. *)
Inductive error :=
  | StatusError (ErrStatus : metav1.Status)
  | errorString (s : string).

Module apierrors.

(* ReasonForError returns the reason of a status error, and the unknown
   reason for every other error. *)
Definition ReasonForError (err : option error) : metav1.StatusReason :=
  match err with
  | Some (StatusError st) => metav1.Reason st
  | _ => metav1.StatusReasonUnknown
  end.

Definition IsNotFound (err : option error) : bool :=
  String.eqb (ReasonForError err) metav1.StatusReasonNotFound.

End apierrors.

Module client.

(* controller-runtime's client.IgnoreNotFound *)
Definition IgnoreNotFound (err : option error) : option error :=
  if apierrors.IsNotFound err then None else err.

End client.

(** ** Types shared by the controllers *)

(** The types of the NodeNetworkConfig resource (package [nnc]) and of the
    network-container request (package [cns]) are declared outside the
    sources read here, and the controllers only pass their values along:
    they are kept abstract. *)
Class ResourceTypes := {
  nnc_Scaler : Type;
  nnc_NodeNetworkConfigSpec : Type;
  nnc_NetworkContainer : Type;
  cns_CreateNetworkContainerRequest : Type
}.

Module cns.

Record KubernetesPodInfo := mkKubernetesPodInfo {
  PodName : string;
  PodNamespace : string
}.

End cns.

(** Of a pod, the fields [initCNS] reads. *)
Module corev1.

Record PodSpec := mkPodSpec { HostNetwork : bool }.
Record PodStatus := mkPodStatus { PodIP : string }.
Record Pod := mkPod {
  Name : string;
  Namespace : string;
  Spec : PodSpec;
  Status : PodStatus
}.
Record PodList := mkPodList { Items : list Pod }.

End corev1.

Module nnc.
Section Types.
Context `{ResourceTypes}.

Record NodeNetworkConfigStatus := mkNodeNetworkConfigStatus {
  Scaler : nnc_Scaler;
  NetworkContainers : list nnc_NetworkContainer
}.

Record NodeNetworkConfig := mkNodeNetworkConfig {
  Spec : nnc_NodeNetworkConfigSpec;
  Status : NodeNetworkConfigStatus
}.

End Types.
End nnc.

(** What a controller does to the world around it, in program order. *)
Inductive event `{ResourceTypes} :=
  | EvLock
  | EvUnlock
  | EvDirectCRDGet (name namespace typeName : string)
  | EvListPods (namespace node : string)
  | EvCRDStatusToNCRequest
  | EvReconcileNCState
      (ncRequest : option cns_CreateNetworkContainerRequest)
      (podInfoByIP : option (gmap string cns.KubernetesPodInfo))
      (scaler : nnc_Scaler) (spec : nnc_NodeNetworkConfigSpec)
  | EvMgrStart.

(** ** A state-and-trace monad for controller methods *)

(** A method runs on a machine: the controller struct and the log of the
    events so far, each with the struct as it is right after the event.
    The entries of the log are the points at which another goroutine can
    observe the controller. *)
Module Run.
Section Monad.
Variables Ev Ctl : Type.

Record machine := mkMachine {
  ctl : Ctl;
  log : list (Ev * Ctl)
}.

Definition M (A : Type) : Type := machine → machine * outcome A.

Definition ret {A} (a : A) : M A := λ m, (m, Returns a).

Definition bind {A B} (c : M A) (k : A → M B) : M B :=
  λ m, match c m with
       | (m', Returns a) => k a m'
       | (m', Exits code) => (m', Exits code)
       | (m', Panics) => (m', Panics)
       | (m', Blocks) => (m', Blocks)
       end.

Definition emit (e : Ev) : M unit :=
  λ m, (mkMachine (ctl m) (log m ++ [(e, ctl m)]), Returns tt).

Definition get : M Ctl := λ m, (m, Returns (ctl m)).

Definition modify (f : Ctl → Ctl) : M unit :=
  λ m, (mkMachine (f (ctl m)) (log m), Returns tt).

Definition stop {A} (o : outcome A) : M A := λ m, (m, o).

(* [defer d; body]: the deferred call runs when the body returns or
   panics; os.Exit runs no deferred call. *)
Definition defer {A} (d : M unit) (body : M A) : M A :=
  λ m, match body m with
       | (m', Returns a) =>
           match d m' with
           | (m'', Returns _) => (m'', Returns a)
           | (m'', Exits code) => (m'', Exits code)
           | (m'', Panics) => (m'', Panics)
           | (m'', Blocks) => (m'', Blocks)
           end
       | (m', Panics) => ((d m').1, Panics)
       | (m', Exits code) => (m', Exits code)
       | (m', Blocks) => (m', Blocks)
       end.

(* A fresh run of a method on a controller. *)
Definition run {A} (c : M A) (rc : Ctl) : machine * outcome A :=
  c (mkMachine rc []).

End Monad.

Arguments mkMachine {Ev Ctl} ctl log.
Arguments ctl {Ev Ctl} m.
Arguments log {Ev Ctl} m.
Arguments ret {Ev Ctl A} a.
Arguments bind {Ev Ctl A B} c k.
Arguments emit {Ev Ctl} e.
Arguments get {Ev Ctl}.
Arguments modify {Ev Ctl} f.
Arguments stop {Ev Ctl A} o.
Arguments defer {Ev Ctl A} d body.
Arguments run {Ev Ctl A} c rc.

(* The events of a log, without the snapshots. *)
Definition events {Ev Ctl} (m : machine Ev Ctl) : list Ev := (log m).*1.

(* The events and the snapshots of a finished run. *)
Definition trace {Ev Ctl A} (r : machine Ev Ctl * outcome A) : list Ev :=
  events (fst r).
Definition snapshots {Ev Ctl A} (r : machine Ev Ctl * outcome A)
    : list (Ev * Ctl) :=
  log (fst r).
Definition result {Ev Ctl A} (r : machine Ev Ctl * outcome A) : outcome A :=
  snd r.

End Run.

#[global] Instance M_ret {Ev Ctl} : MRet (Run.M Ev Ctl) := λ A, Run.ret.
#[global] Instance M_bind {Ev Ctl} : MBind (Run.M Ev Ctl) :=
  λ A B k c, Run.bind c k.

(** ** Package kubecontroller: the request controller *)

Module kubecontroller.
Section Controller.
Context `{ResourceTypes}.

Definition nodeNameEnvVar := "NODENAME".
Definition k8sNamespace := "kube-system".
Definition crdTypeName := "nodenetworkconfigs".
Definition allNamespaces := "".

(* The collaborators the controller struct points to: the direct clients,
   the CNS client, the status translator of the package and the manager,
   each given by what its call answers. *)
Record collaborators := mkCollaborators {
  directCRDClient_Get :
    string → string → string → option nnc.NodeNetworkConfig * option error;
  directAPIClient_ListPods :
    string → string → option corev1.PodList * option error;
  CRDStatusToNCRequest :
    nnc.NodeNetworkConfigStatus → cns_CreateNetworkContainerRequest * option error;
  CNSClient_ReconcileNCState :
    option cns_CreateNetworkContainerRequest →
    option (gmap string cns.KubernetesPodInfo) →
    nnc_Scaler → nnc_NodeNetworkConfigSpec → option error;
  mgr_Start : option error
}.

(* The fields of requestController that its methods read and write;
   [lock] tells whether the mutex is held. *)
Record requestController := mkRequestController {
  nodeName : string;
  initialized : bool;
  Started : bool;
  lock : bool
}.

Definition set_initialized (b : bool) (rc : requestController) :=
  mkRequestController (nodeName rc) b (Started rc) (lock rc).
Definition set_Started (b : bool) (rc : requestController) :=
  mkRequestController (nodeName rc) (initialized rc) b (lock rc).
Definition set_lock (b : bool) (rc : requestController) :=
  mkRequestController (nodeName rc) (initialized rc) (Started rc) b.

Abbreviation M := (Run.M event requestController).

Variable env : collaborators.

(* rc.lock.Lock() *)
Definition Lock : M unit :=
  rc ← Run.get;
  if lock rc then Run.stop Blocks
  else (Run.modify (set_lock true) ;; Run.emit EvLock).

(* rc.lock.Unlock() *)
Definition Unlock : M unit :=
  rc ← Run.get;
  if lock rc then (Run.modify (set_lock false) ;; Run.emit EvUnlock)
  else Run.stop Panics.

(* isNotDefined tells whether the given error is a CRD not defined error *)
Fixpoint isNotDefined_loop (err : option error)
    (causes : list metav1.StatusCause) (notDefined : bool) : bool :=
  match causes with
  | [] => notDefined
  | cause :: rest =>
      if String.eqb (metav1.Type_ cause) metav1.CauseTypeUnexpectedServerResponse
      then if apierrors.IsNotFound err then true
           else isNotDefined_loop err rest notDefined
      else isNotDefined_loop err rest notDefined
  end.

Definition isNotDefined (err : option error) : outcome bool :=
  match err with
  | None => Returns false
  | Some (errorString _) => Returns false
  | Some (StatusError ErrStatus) =>
      match metav1.Details ErrStatus with
      | None => Panics
      | Some details =>
          if Nat.ltb 0 (length (metav1.Causes details))
          then Returns (isNotDefined_loop err (metav1.Causes details) false)
          else Returns false
      end
  end.

(* getNodeNetConfigDirect gets the nodeNetworkConfig CRD using a direct client *)
Definition getNodeNetConfigDirect (name namespace : string)
    : M (option nnc.NodeNetworkConfig * option error) :=
  Run.emit (EvDirectCRDGet name namespace crdTypeName) ;;
  match directCRDClient_Get env name namespace crdTypeName with
  | (_, Some err) => Run.ret (None, Some err)
  | (nodeNetworkConfig, None) => Run.ret (nodeNetworkConfig, None)
  end.

(* getAllPods gets all pods running on the node using the direct API client *)
Definition getAllPods (node : string)
    : M (option corev1.PodList * option error) :=
  Run.emit (EvListPods allNamespaces node) ;;
  match directAPIClient_ListPods env allNamespaces node with
  | (_, Some err) => Run.ret (None, Some err)
  | (pods, None) => Run.ret (pods, None)
  end.

(* rc.CNSClient.ReconcileNCState(...) *)
Definition ReconcileNCState
    (ncRequest : option cns_CreateNetworkContainerRequest)
    (podInfoByIP : option (gmap string cns.KubernetesPodInfo))
    (scaler : nnc_Scaler) (spec : nnc_NodeNetworkConfigSpec)
    : M (option error) :=
  Run.emit (EvReconcileNCState ncRequest podInfoByIP scaler spec) ;;
  Run.ret (CNSClient_ReconcileNCState env ncRequest podInfoByIP scaler spec).

(* One iteration of the loop of initCNS over the pods. *)
Definition podInfoByIP_step (podInfoByIP : gmap string cns.KubernetesPodInfo)
    (pod : corev1.Pod) : gmap string cns.KubernetesPodInfo :=
  if negb (corev1.HostNetwork (corev1.Spec pod))
  then <[corev1.PodIP (corev1.Status pod) :=
           cns.mkKubernetesPodInfo (corev1.Name pod) (corev1.Namespace pod)]>
         podInfoByIP
  else podInfoByIP.

(* The pod map of initCNS: nil ([None]) for an empty pod list. *)
Definition podInfoByIP_of (Items : list corev1.Pod)
    : option (gmap string cns.KubernetesPodInfo) :=
  if negb (Nat.eqb (length Items) 0)
  then Some (fold_left podInfoByIP_step Items ∅)
  else None.

(* initCNS initializes cns by passing pods and a createnetworkcontainerrequest *)
Definition initCNS : M (option error) :=
  rc ← Run.get;
  r ← getNodeNetConfigDirect (nodeName rc) k8sNamespace;
  match r with
  | (nodeNetConfig, Some err) =>
      notDefined ← Run.stop (isNotDefined (Some err));
      if notDefined : bool then Run.stop (Exits 1)
      else
        match nodeNetConfig with
        | None => Run.ret None
        | Some cfg =>
            match client.IgnoreNotFound (Some err) with
            | None =>
                ReconcileNCState None None
                  (nnc.Scaler (nnc.Status cfg)) (nnc.Spec cfg)
            | Some _ => Run.ret (Some err)
            end
        end
  | (None, None) => Run.stop Panics
  | (Some cfg, None) =>
      if Nat.eqb (length (nnc.NetworkContainers (nnc.Status cfg))) 0
      then ReconcileNCState None None
             (nnc.Scaler (nnc.Status cfg)) (nnc.Spec cfg)
      else
        Run.emit EvCRDStatusToNCRequest ;;
        match CRDStatusToNCRequest env (nnc.Status cfg) with
        | (_, Some err) => Run.ret (Some err)
        | (ncRequest, None) =>
            p ← getAllPods (nodeName rc);
            match p with
            | (_, Some err) => Run.ret (Some err)
            | (None, None) => Run.stop Panics
            | (Some pods, None) =>
                ReconcileNCState (Some ncRequest)
                  (podInfoByIP_of (corev1.Items pods))
                  (nnc.Scaler (nnc.Status cfg)) (nnc.Spec cfg)
            end
        end
  end.

(* InitRequestController will initialize/reconcile the CNS state *)
Definition InitRequestController : M (option error) :=
  Run.defer Unlock
    (Lock ;;
     err ← initCNS;
     match err with
     | Some e => Run.ret (Some e)
     | None => Run.modify (set_initialized true) ;; Run.ret None
     end).

(* The error StartRequestController makes with fmt.Errorf. *)
Definition not_initialized_error : error :=
  errorString "Failed to start requestController, state is not initialized".

(* StartRequestController starts the Reconciler loop which watches for CRD
   status updates *)
Definition StartRequestController : M (option error) :=
  Lock ;;
  rc ← Run.get;
  if negb (initialized rc)
  then (Unlock ;; Run.ret (Some not_initialized_error))
  else
    Run.modify (set_Started true) ;;
    Unlock ;;
    Run.emit EvMgrStart ;;
    match mgr_Start env with
    | Some err =>
        notDefined ← Run.stop (isNotDefined (Some err));
        if notDefined : bool then Run.stop (Exits 1)
        else Run.ret (Some err)
    | None => Run.ret None
    end.

(* return if RequestController is started *)
Definition IsStarted : M bool :=
  Run.defer Unlock (Lock ;; rc ← Run.get; Run.ret (Started rc)).

End Controller.
End kubecontroller.

(** ** Package multitenantoperator: the multi-tenant controller *)

Module multitenantoperator.
Section Controller.
Context `{ResourceTypes}.

(* The fields of multiTenantController that its methods read and write. *)
Record multiTenantController := mkMultiTenantController {
  nodeName : string;
  Started : bool;
  lock : bool
}.

Definition set_Started (b : bool) (mtc : multiTenantController) :=
  mkMultiTenantController (nodeName mtc) b (lock mtc).
Definition set_lock (b : bool) (mtc : multiTenantController) :=
  mkMultiTenantController (nodeName mtc) (Started mtc) b.

Abbreviation M := (Run.M event multiTenantController).

(* What mtc.mgr.Start answers. *)
Variable mgr_Start : option error.

Definition Lock : M unit :=
  mtc ← Run.get;
  if lock mtc then Run.stop Blocks
  else (Run.modify (set_lock true) ;; Run.emit EvLock).

Definition Unlock : M unit :=
  mtc ← Run.get;
  if lock mtc then (Run.modify (set_lock false) ;; Run.emit EvUnlock)
  else Run.stop Panics.

(* isNotDefined tells whether the given error is a CRD not defined error *)
Fixpoint isNotDefined_loop (err : option error)
    (causes : list metav1.StatusCause) (notDefined : bool) : bool :=
  match causes with
  | [] => notDefined
  | cause :: rest =>
      if String.eqb (metav1.Type_ cause) metav1.CauseTypeUnexpectedServerResponse
      then if apierrors.IsNotFound err then true
           else isNotDefined_loop err rest notDefined
      else isNotDefined_loop err rest notDefined
  end.

Definition isNotDefined (err : option error) : outcome bool :=
  match err with
  | None => Returns false
  | Some (errorString _) => Returns false
  | Some (StatusError ErrStatus) =>
      match metav1.Details ErrStatus with
      | None => Panics
      | Some details =>
          if Nat.ltb 0 (length (metav1.Causes details))
          then Returns (isNotDefined_loop err (metav1.Causes details) false)
          else Returns false
      end
  end.

(* StartMultiTenantController starts the Reconciler loop which watches for
   CRD status updates. *)
Definition StartMultiTenantController : M (option error) :=
  Lock ;;
  Run.modify (set_Started true) ;;
  Unlock ;;
  Run.emit EvMgrStart ;;
  match mgr_Start with
  | Some err =>
      notDefined ← Run.stop (isNotDefined (Some err));
      if notDefined : bool then Run.stop (Exits 1)
      else Run.ret (Some err)
  | None => Run.ret None
  end.

Definition IsStarted : M bool :=
  Run.defer Unlock (Lock ;; mtc ← Run.get; Run.ret (Started mtc)).

End Controller.
End multitenantoperator.

(** ** Vocabulary of the properties *)

Module Stated.
Section Stated.
Context `{ResourceTypes}.
Import kubecontroller.

(** An "unexpected server response" cause among the causes. *)
Definition unexpected_response (causes : list metav1.StatusCause) : Prop :=
  ∃ cause, cause ∈ causes ∧
           metav1.Type_ cause = metav1.CauseTypeUnexpectedServerResponse.

(** The entry [initCNS] records for a pod. *)
Definition entry_of (pod : corev1.Pod) : cns.KubernetesPodInfo :=
  cns.mkKubernetesPodInfo (corev1.Name pod) (corev1.Namespace pod).

(** [pod] is a container pod (not on the host network) with address [ip]. *)
Definition container_pod_at (ip : string) (pod : corev1.Pod) : Prop :=
  corev1.HostNetwork (corev1.Spec pod) = false ∧
  corev1.PodIP (corev1.Status pod) = ip.

(** A plain not-found error: the instance is absent, the kind is defined. *)
Definition plain_not_found (err : error) : Prop :=
  apierrors.IsNotFound (Some err) = true ∧
  isNotDefined (Some err) = Returns false.

(** Cold start on a plain not-found read pushes a nil request (and nil pod
    map) to [ReconcileNCState] and returns no error. *)
Definition not_found_pushes_nil_request
    (env : collaborators) (rc : requestController) : Prop :=
  ∀ cfg err,
    directCRDClient_Get env (nodeName rc) k8sNamespace crdTypeName = (cfg, Some err) →
    plain_not_found err →
    Run.result (Run.run (initCNS env) rc) = Returns None ∧
    ∃ scaler spec,
      EvReconcileNCState None None scaler spec
        ∈ Run.trace (Run.run (initCNS env) rc).

(** At no observable point of a run (an entry of its log at which the
    mutex is free) is the started flag set while the manager has not been
    started yet. *)
Definition never_started_before_manager {Ctl : Type}
    (started held : Ctl → bool) (l : list (event * Ctl)) : Prop :=
  ∀ i e c,
    l !! i = Some (e, c) → held c = false → started c = true →
    EvMgrStart ∈ (take (S i) l).*1.

(** The pod map has, for every pod of the list, the entry of that pod
    (its IP mapped to its name and namespace) exactly when the pod is not
    on the host network. *)
Definition one_entry_per_container_pod (pods : list corev1.Pod) : Prop :=
  ∀ pod, pod ∈ pods →
    (default ∅ (podInfoByIP_of pods) !! corev1.PodIP (corev1.Status pod)
       = Some (entry_of pod))
    ↔ corev1.HostNetwork (corev1.Spec pod) = false.

End Stated.

Section CNI.
Import CNI.
Variable IP_String : list Z → string.

(** The key an interface is filed under: the string of its first address. *)
Definition first_key (endpoint : PodNetworkInterfaceInfo) : option string :=
  match IPAddresses endpoint with
  | [] => None
  | first :: _ => Some (IP_String (IP first))
  end.

(** The pod info recorded for an interface. *)
Definition info_of (endpoint : PodNetworkInterfaceInfo) : PodInfo :=
  NewPodInfo "" (PodEndpointId endpoint) (PodName_ endpoint)
             (PodNamespace_ endpoint).

End CNI.

End Stated.

(** ** Concrete inputs *)

Module Samples.
Import kubecontroller.

Definition sample_types : ResourceTypes := {|
  nnc_Scaler := Z;
  nnc_NodeNetworkConfigSpec := Z;
  nnc_NetworkContainer := string;
  cns_CreateNetworkContainerRequest := list string
|}.
#[local] Existing Instance sample_types.

(* What apierrors.NewNotFound builds: details without causes. *)
Definition not_found_error : error :=
  StatusError (metav1.mkStatus "NotFound" (Some (metav1.mkStatusDetails []))).

(* A not-found status that carries no details: the [Details] pointer of
   [&apierrors.StatusError{ErrStatus: metav1.Status{Reason: "NotFound"}}],
   or of a status decoded from a response without a "details" field, is
   nil. *)
Definition bare_not_found_error : error :=
  StatusError (metav1.mkStatus "NotFound" None).

(* What the REST client builds from a 404 for an unknown resource kind. *)
Definition kind_not_defined_error : error :=
  StatusError (metav1.mkStatus "NotFound"
    (Some (metav1.mkStatusDetails
       [metav1.mkStatusCause "UnexpectedServerResponse" "404 page not found"]))).

Definition refused_error : error := errorString "connection refused".

Definition host_pod : corev1.Pod :=
  corev1.mkPod "kube-proxy" "kube-system"
    (corev1.mkPodSpec true) (corev1.mkPodStatus "10.0.0.5").
Definition container_pod : corev1.Pod :=
  corev1.mkPod "web" "default"
    (corev1.mkPodSpec false) (corev1.mkPodStatus "10.244.1.2").

(* Two pods that are scheduled but have no address yet. *)
Definition pending_pod_a : corev1.Pod :=
  corev1.mkPod "a" "default" (corev1.mkPodSpec false) (corev1.mkPodStatus "").
Definition pending_pod_b : corev1.Pod :=
  corev1.mkPod "b" "default" (corev1.mkPodSpec false) (corev1.mkPodStatus "").

Definition sample_env
    (get : option nnc.NodeNetworkConfig * option error)
    (start : option error) : collaborators := {|
  directCRDClient_Get := λ _ _ _, get;
  directAPIClient_ListPods :=
    λ _ _, (Some (corev1.mkPodList [host_pod; container_pod]), None);
  CRDStatusToNCRequest := λ st, (nnc.NetworkContainers st, None);
  CNSClient_ReconcileNCState := λ _ _ _ _, None;
  mgr_Start := start
|}.

Definition empty_config : nnc.NodeNetworkConfig :=
  nnc.mkNodeNetworkConfig 16%Z (nnc.mkNodeNetworkConfigStatus 8%Z []).

Definition fresh_rc : requestController :=
  mkRequestController "node-0" false false false.
Definition initialized_rc : requestController :=
  mkRequestController "node-0" true false false.
Definition fresh_mtc : multitenantoperator.multiTenantController :=
  multitenantoperator.mkMultiTenantController "node-0" false false.

(* The statuses of the classifier's test. *)
Definition sample_statuses : gmap string Filter.IPConfigurationStatus :=
  <["0" := Filter.mkIPConfigurationStatus "allocated" Filter.Allocated]>
  (<["1" := Filter.mkIPConfigurationStatus "available" Filter.Available]>
  (<["2" := Filter.mkIPConfigurationStatus "pending-programming"
              Filter.PendingProgramming]>
  (<["3" := Filter.mkIPConfigurationStatus "pending-release"
              Filter.PendingRelease]> ∅))).

(** A sample state and its string function for the one address used. *)
Definition sample_IP_String (ip : list Z) : string :=
  if decide (ip = [10; 244; 1; 2]%Z) then "10.244.1.2" else "?".

Definition sample_state : CNI.State :=
  CNI.mkState {[ "eth0" :=
    CNI.mkPodNetworkInterfaceInfo "web" "default" "ep-eth0" "c0"
      [CNI.mkIPNet [10; 244; 1; 2]%Z [255; 255; 255; 0]%Z] ]}.

Definition sample_state_no_address : CNI.State :=
  CNI.mkState {[ "eth0" :=
    CNI.mkPodNetworkInterfaceInfo "web" "default" "ep-eth0" "c0" [] ]}.

End Samples.

(** ** More of the request controller: pushing a spec *)

Module SpecUpdate.
Section Update.
Context `{ResourceTypes}.
Import kubecontroller.

(* client.ObjectKey *)
Record ObjectKey := mkObjectKey {
  Namespace : string;
  Name : string
}.

(* rc.KubeClient, the cached client: Get fills the object it is handed
   and answers an error or nil ([inl] is the filled object); Update
   answers an error or nil. *)
Record KubeClient := mkKubeClient {
  Get : ObjectKey → nnc.NodeNetworkConfig + error;
  Update : nnc.NodeNetworkConfig → option error
}.

Inductive kube_event :=
  | EvGet (key : ObjectKey)
  | EvUpdate (nodeNetworkConfig : nnc.NodeNetworkConfig).

Variable kube : KubeClient.

(* getNodeNetConfig gets the nodeNetworkConfig CRD given the name and
   namespace of the CRD object *)
Definition getNodeNetConfig (name namespace : string)
    : Run.M kube_event requestController
        (option nnc.NodeNetworkConfig * option error) :=
  Run.emit (EvGet (mkObjectKey namespace name)) ;;
  match Get kube (mkObjectKey namespace name) with
  | inr err => Run.ret (None, Some err)
  | inl nodeNetworkConfig => Run.ret (Some nodeNetworkConfig, None)
  end.

(* updateNodeNetConfig updates the nodeNetConfig object in the API server
   with the given nodeNetworkConfig object *)
Definition updateNodeNetConfig (nodeNetworkConfig : nnc.NodeNetworkConfig)
    : Run.M kube_event requestController (option error) :=
  Run.emit (EvUpdate nodeNetworkConfig) ;;
  match Update kube nodeNetworkConfig with
  | Some err => Run.ret (Some err)
  | None => Run.ret None
  end.

(* UpdateCRDSpec updates the CRD spec.  [crdSpec.DeepCopyInto] overwrites
   the spec of the resource that was read. *)
Definition UpdateCRDSpec (crdSpec : nnc_NodeNetworkConfigSpec)
    : Run.M kube_event requestController (option error) :=
  rc ← Run.get;
  r ← getNodeNetConfig (nodeName rc) k8sNamespace;
  match r with
  | (_, Some err) => Run.ret (Some err)
  | (None, None) => Run.stop Panics
  | (Some nodeNetworkConfig, None) =>
      err ← updateNodeNetConfig
              (nnc.mkNodeNetworkConfig crdSpec (nnc.Status nodeNetworkConfig));
      match err with
      | Some e => Run.ret (Some e)
      | None => Run.ret None
      end
  end.

End Update.
End SpecUpdate.

(** ** Constructing the controllers *)

Module Construction.
Section New.

(* err.Error(), as fmt.Errorf prints an error with %v. *)
Variable Error : error → string.

(* What the constructor finds around it: whether the logger package is
   initialized, the NODENAME variable, and what each call it makes
   answers. *)
Record surroundings := mkSurroundings {
  logger_Log : bool;
  Getenv_NODENAME : string;
  clientgoscheme_AddToScheme : option error;
  crd_AddToScheme : option error;
  NewAPIDirectClient : option error;
  NewCRDDirectClient : option error;
  ctrl_NewManager : option error;
  SetupWithManager : option error
}.

(* NewCrdRequestController given a reference to CNS's HTTPRestService
   state, returns a crdRequestController struct *)
Definition NewCrdRequestController (s : surroundings)
    : kubecontroller.requestController + error :=
  if negb (logger_Log s)
  then inr (errorString "Must initialize logger before calling")
  else
    let nodeName := Getenv_NODENAME s in
    if String.eqb nodeName ""
    then inr (errorString ("Must declare " ++ kubecontroller.nodeNameEnvVar
                           ++ " environment variable."))
    else
      match clientgoscheme_AddToScheme s with
      | Some _ =>
          inr (errorString "Error adding client-go scheme to runtime scheme")
      | None =>
      match crd_AddToScheme s with
      | Some _ =>
          inr (errorString
                 "Error adding NodeNetworkConfig scheme to runtime scheme")
      | None =>
      match NewAPIDirectClient s with
      | Some err =>
          inr (errorString ("Error creating direct API Client: " ++ Error err))
      | None =>
      match NewCRDDirectClient s with
      | Some err =>
          inr (errorString ("Error creating direct CRD client: " ++ Error err))
      | None =>
      match ctrl_NewManager s with
      | Some err => inr err
      | None =>
      match SetupWithManager s with
      | Some err => inr err
      | None =>
          inl (kubecontroller.mkRequestController nodeName false false false)
      end end end end end end.

(* NewMultiTenantController creates a new multi-tenant CRD operator; it
   makes no direct clients. *)
Definition NewMultiTenantController (s : surroundings)
    : multitenantoperator.multiTenantController + error :=
  if negb (logger_Log s)
  then inr (errorString "Must initialize logger before calling")
  else
    let nodeName := Getenv_NODENAME s in
    if String.eqb nodeName ""
    then inr (errorString ("Must declare " ++ kubecontroller.nodeNameEnvVar
                           ++ " environment variable."))
    else
      match clientgoscheme_AddToScheme s with
      | Some _ =>
          inr (errorString "Error adding client-go scheme to runtime scheme")
      | None =>
      match crd_AddToScheme s with
      | Some _ =>
          inr (errorString
                 "Error adding NetworkContainer scheme to runtime scheme")
      | None =>
      match ctrl_NewManager s with
      | Some err => inr err
      | None =>
      match SetupWithManager s with
      | Some err => inr err
      | None =>
          inl (multitenantoperator.mkMultiTenantController nodeName false false)
      end end end end.

(** Every call the constructor makes answers nil. *)
Definition all_calls_succeed (s : surroundings) : Prop :=
  clientgoscheme_AddToScheme s = None ∧ crd_AddToScheme s = None ∧
  NewAPIDirectClient s = None ∧ NewCRDDirectClient s = None ∧
  ctrl_NewManager s = None ∧ SetupWithManager s = None.

End New.
End Construction.

(** ** Package cni: the initializer *)

Module CNIInit.
Section Initializer.
Variable IP_String : list Z → string.

(* cns.PodInfoByIPProvider: calling it ranges over the interface map, so
   a call takes the visiting order of that range. *)
Definition PodInfoByIPProvider : Type :=
  list (string * CNI.PodNetworkInterfaceInfo) →
  outcome (gmap string CNI.PodInfo).

(* CNICNSInitializer returns an implementation of cns.PodInfoByIPProvider
   that execs out to the CNI and uses the response to build the PodInfo
   map.  [GetEndpointState] is what the exec'd client answers. *)
Definition CNICNSInitializer
    (GetEndpointState : option CNI.State * option error)
    : option PodInfoByIPProvider * option error :=
  match GetEndpointState with
  | (_, Some err) => (None, Some err)
  | (state, None) =>
      (Some (λ order, CNI.cniStateToPodInfoByIP IP_String state order), None)
  end.

End Initializer.
End CNIInit.

(** ** Package logger: what a report message does to the telemetry report *)

Module Telemetry.

Definition errorcodePrefix : nat := 5.

(* \w of Go's regexp syntax: an ASCII letter, digit or underscore. *)
Definition is_word (c : Ascii.ascii) : bool :=
  let n := Ascii.nat_of_ascii c in
  (Nat.leb 48 n && Nat.leb n 57) || (Nat.leb 65 n && Nat.leb n 90)
  || (Nat.leb 97 n && Nat.leb n 122) || Nat.eqb n 95.

(* The longest run of word characters a string starts with. *)
Fixpoint word_run (s : string) : string :=
  match s with
  | EmptyString => EmptyString
  | String c rest => if is_word c then String c (word_run rest) else EmptyString
  end.

(* s[n:] *)
Fixpoint string_from (n : nat) (s : string) : string :=
  match n, s with
  | O, _ => s
  | S n', String _ rest => string_from n' rest
  | S _, EmptyString => EmptyString
  end.

(* codeRegex.FindString, for the pattern of codeRegex: the literal
   "Code:" followed by a captured, starred \w.  It gives the text of the
   leftmost match, or the empty string when there is none.  The pattern
   matches wherever "Code:" stands, so the leftmost match starts at the
   first "Code:" and runs over the word characters after it. *)
Fixpoint codeRegex_FindString (s : string) : string :=
  if String.prefix "Code:" s
  then "Code:" ++ word_run (string_from 5 s)
  else match s with
       | EmptyString => EmptyString
       | String _ rest => codeRegex_FindString rest
       end.

(* The fields of telemetry.CNSReport that SendToTelemetryService sets. *)
Record CNSReport := mkCNSReport {
  Errorcode : string;
  EventMessage : string;
  Timestamp : string;
  UUID : string
}.

(* A value received from the reports channel (an interface{}): a string
   or a value of another type. *)
Inductive report_message :=
  | StringMessage (s : string)
  | OtherMessage.

(* The [case msg := <-reports] arm of SendToTelemetryService, on the
   report the manager holds; [msg.(string)] panics on a value that is not
   a string. *)
Definition record_message (msg : report_message) (report : CNSReport)
    : outcome CNSReport :=
  match msg with
  | OtherMessage => Panics
  | StringMessage s =>
      let codeStr := codeRegex_FindString s in
      let report :=
        if Nat.ltb errorcodePrefix (String.length codeStr)
        then mkCNSReport (string_from errorcodePrefix codeStr)
               (EventMessage report) (Timestamp report) (UUID report)
        else report in
      Returns (mkCNSReport (Errorcode report) s (Timestamp report) (UUID report))
  end.

(** [w] is made of word characters only. *)
Fixpoint all_word (w : string) : bool :=
  match w with
  | EmptyString => true
  | String c rest => is_word c && all_word rest
  end.

(** "Code:" stands somewhere in [s]. *)
Definition has_code_tag (s : string) : Prop :=
  ∃ pre post : string, s = (pre ++ "Code:" ++ post)%string.

(** [pre] ends where the leftmost "Code:" of [s] begins. *)
Definition leftmost_tag (s pre post : string) : Prop :=
  s = (pre ++ "Code:" ++ post)%string ∧
  ∀ pre' post' : string, s = (pre' ++ "Code:" ++ post')%string →
                         (String.length pre ≤ String.length pre')%nat.

End Telemetry.

(** ** More vocabulary *)

Module Vocabulary.
Section Events.
Context `{ResourceTypes}.

Definition is_reconcile (e : event) : bool :=
  match e with EvReconcileNCState _ _ _ _ => true | _ => false end.

Definition is_direct_read (e : event) : bool :=
  match e with EvDirectCRDGet _ _ _ => true | _ => false end.

Definition is_mutex_or_manager (e : event) : bool :=
  match e with EvLock | EvUnlock | EvMgrStart => true | _ => false end.

End Events.

(** How a manager's answer ends a start method: nil is returned as nil;
    an error is classified first, and the start method ends the process
    with code 1 when the answer is true, returns the error when the
    answer is false, and ends as the classification does when that does
    not return (it panics on a status error without details). *)
Definition end_of_start (classify : option error → outcome bool)
    (answer : option error) : outcome (option error) :=
  match answer with
  | None => Returns None
  | Some err =>
      match classify (Some err) with
      | Returns true => Exits 1
      | Returns false => Returns (Some err)
      | Exits code => Exits code
      | Panics => Panics
      | Blocks => Blocks
      end
  end.

End Vocabulary.

Module MoreSamples.
Import kubecontroller Samples.
#[local] Existing Instance sample_types.

Definition one_container_config : nnc.NodeNetworkConfig :=
  nnc.mkNodeNetworkConfig 16%Z (nnc.mkNodeNetworkConfigStatus 8%Z ["nc-0"]).

Definition failing_translation (err : error) : collaborators := {|
  directCRDClient_Get := λ _ _ _, (Some one_container_config, None);
  directAPIClient_ListPods :=
    λ _ _, (Some (corev1.mkPodList [host_pod; container_pod]), None);
  CRDStatusToNCRequest := λ st, (nnc.NetworkContainers st, Some err);
  CNSClient_ReconcileNCState := λ _ _ _ _, None;
  mgr_Start := None
|}.

Definition failing_reconcile (err : error) : collaborators := {|
  directCRDClient_Get := λ _ _ _, (Some empty_config, None);
  directAPIClient_ListPods :=
    λ _ _, (Some (corev1.mkPodList [host_pod; container_pod]), None);
  CRDStatusToNCRequest := λ st, (nnc.NetworkContainers st, None);
  CNSClient_ReconcileNCState := λ _ _ _ _, Some err;
  mgr_Start := None
|}.

Definition sample_kube : SpecUpdate.KubeClient :=
  SpecUpdate.mkKubeClient (λ _, inl one_container_config) (λ _, None).

Definition sample_surroundings : Construction.surroundings :=
  Construction.mkSurroundings true "node-0" None None None None None None.

(* Two interfaces with one first address, in visiting order. *)
Definition two_interfaces_one_address : list (string * CNI.PodNetworkInterfaceInfo) :=
  [("eth0", CNI.mkPodNetworkInterfaceInfo "old" "default" "ep-old" "c0"
              [CNI.mkIPNet [10; 244; 1; 2]%Z [255; 255; 255; 0]%Z]);
   ("eth1", CNI.mkPodNetworkInterfaceInfo "new" "default" "ep-new" "c1"
              [CNI.mkIPNet [10; 244; 1; 2]%Z [255; 255; 255; 0]%Z])].

(* A state with two interfaces that have different first addresses, the
   string function for them, and the two orders a range loop can visit
   the interfaces in. *)
Definition two_address_String (ip : list Z) : string :=
  if decide (ip = [10; 244; 1; 2]%Z) then "10.244.1.2"
  else if decide (ip = [10; 244; 1; 3]%Z) then "10.244.1.3" else "?".

Definition web_interface : CNI.PodNetworkInterfaceInfo :=
  CNI.mkPodNetworkInterfaceInfo "web" "default" "ep-web" "c0"
    [CNI.mkIPNet [10; 244; 1; 2]%Z [255; 255; 255; 0]%Z].
Definition db_interface : CNI.PodNetworkInterfaceInfo :=
  CNI.mkPodNetworkInterfaceInfo "db" "default" "ep-db" "c1"
    [CNI.mkIPNet [10; 244; 1; 3]%Z [255; 255; 255; 0]%Z].

Definition two_interface_state : CNI.State :=
  CNI.mkState (<["eth0" := web_interface]> {["eth1" := db_interface]}).

Definition web_then_db : list (string * CNI.PodNetworkInterfaceInfo) :=
  [("eth0", web_interface); ("eth1", db_interface)].
Definition db_then_web : list (string * CNI.PodNetworkInterfaceInfo) :=
  [("eth1", db_interface); ("eth0", web_interface)].

End MoreSamples.

(** * Properties *)

(** ** Visiting orders *)

Lemma range_of_canonical {V} (m : gmap string V) : range_of m (map_to_list m).
Proof. unfold range_of. reflexivity. Qed.

Lemma range_of_lookup {V} (m : gmap string V) order k v :
  range_of m order → (k, v) ∈ order ↔ m !! k = Some v.
Proof.
  unfold range_of. intros Hp. rewrite Hp. apply elem_of_map_to_list.
Qed.

Lemma range_of_empty {V} (m : gmap string V) order :
  range_of m order → size m = 0 → order = [].
Proof.
  unfold range_of. intros Hp Hs. apply map_size_empty_iff in Hs. subst m.
  rewrite map_to_list_empty in Hp. by apply Permutation_nil_r in Hp.
Qed.

(** ** The classifier *)

Module FilterFacts.
Import Filter Samples.

Lemma matchesAny_spec v ps :
  matchesAnyIPConfigState v ps = true ↔ ∃ p, p ∈ ps ∧ p v = true.
Proof.
  induction ps as [|p ps IH]; simpl.
  - split; [done | intros (p & Hp & _); by apply elem_of_nil in Hp].
  - destruct (p v) eqn:E.
    + split; [intros _; exists p; split; [left | done] | done].
    + rewrite IH. split.
      * intros (q & Hq & Hv). exists q. split; [by right | done].
      * intros (q & Hq & Hv). apply elem_of_cons in Hq as [-> | Hq];
          [congruence | eauto].
Qed.

Lemma fold_match_step ps order acc :
  fold_left (match_step ps) order acc =
  acc ++ filter (λ v, matchesAnyIPConfigState v ps = true) (order.*2).
Proof.
  revert acc. induction order as [|[k v] order IH]; intros acc; simpl.
  - by rewrite app_nil_r.
  - rewrite IH. unfold match_step; simpl.
    destruct (matchesAnyIPConfigState v ps) eqn:E.
    + rewrite filter_cons_True by done. by rewrite <- app_assoc.
    + rewrite filter_cons_False by congruence. done.
Qed.

(** Whatever the visiting order, the loop (and both early returns) compute
    the filter of the visited values. *)
Lemma MatchAnyIPConfigState_filter M order ps :
  range_of M order →
  MatchAnyIPConfigState M order ps =
  filter (λ v, matchesAnyIPConfigState v ps = true) (order.*2).
Proof.
  intros Hr. unfold MatchAnyIPConfigState.
  destruct (Nat.eqb (length ps) 0) eqn:El; simpl.
  - apply Nat.eqb_eq in El. destruct ps; [| done].
    clear. induction (order.*2) as [|v l IH]; [done |].
    by rewrite filter_cons_False.
  - destruct (Nat.eqb (size M) 0) eqn:Es.
    + apply Nat.eqb_eq in Es. by rewrite (range_of_empty M order Hr Es).
    + by rewrite fold_match_step.
Qed.

Lemma filters_lookup state :
  filters !! state =
  if known state then Some (ipConfigStatePredicate state) else None.
Proof.
  unfold filters, known.
  destruct (decide (state = Allocated)) as [-> | H1]; [done |].
  destruct (decide (state = Available)) as [-> | H2]; [done |].
  destruct (decide (state = PendingProgramming)) as [-> | H3]; [done |].
  destruct (decide (state = PendingRelease)) as [-> | H4]; [done |].
  rewrite !lookup_insert_ne, lookup_empty by done.
  rewrite bool_decide_eq_false_2; [done |].
  rewrite !elem_of_cons, elem_of_nil. intros [?|[?|[?|[?|[]]]]]; done.
Qed.

Lemma fold_predicates_step states acc :
  fold_left predicates_step states acc =
  acc ++ (ipConfigStatePredicate <$> List.filter known states).
Proof.
  revert acc. induction states as [|s states IH]; intros acc; simpl.
  - by rewrite app_nil_r.
  - rewrite IH. unfold predicates_step. rewrite filters_lookup.
    destruct (known s); simpl; [by rewrite <- app_assoc | done].
Qed.

(** C1. For every map [M] and predicate list [S], whatever order the range
    loop visits [M] in, [MatchAnyIPConfigState] returns exactly the values
    of [M] that satisfy at least one predicate of [S]: the same elements,
    and also the same number of copies of each (one per matching entry).
    For an empty [S] or an empty [M] the result is the empty list.  The
    function is total: it has no error result. *)
Theorem MatchAnyIPConfigState_exact
    (M : gmap string IPConfigurationStatus)
    (order : list (string * IPConfigurationStatus))
    (S : list IPConfigStatePredicate) :
  range_of M order →
  (∀ v, v ∈ MatchAnyIPConfigState M order S ↔
        (∃ k, M !! k = Some v) ∧ ∃ p, p ∈ S ∧ p v = true)
  ∧ MatchAnyIPConfigState M order S ≡ₚ
      filter (λ v, Exists (λ p, p v = true) S) ((map_to_list M).*2)
  ∧ (S = [] ∨ M = ∅ → MatchAnyIPConfigState M order S = []).
Proof.
  intros Hr. rewrite (MatchAnyIPConfigState_filter M order S Hr).
  split; [| split].
  - intros v. rewrite list_elem_of_filter, matchesAny_spec, list_elem_of_fmap.
    split.
    + intros [Hm ([k v'] & -> & Hin)]. simpl in *.
      split; [| done]. exists k. by apply (range_of_lookup M order).
    + intros [[k Hk] Hm]. split; [done |].
      exists (k, v). split; [done |]. by apply (range_of_lookup M order).
  - unfold range_of in Hr. rewrite Hr.
    erewrite list_filter_iff; [reflexivity |]. intros v.
    rewrite matchesAny_spec, Exists_exists. done.
  - intros [-> | ->].
    + induction (order.*2) as [|v l IH]; [done |].
      by rewrite filter_cons_False.
    + unfold range_of in Hr. rewrite map_to_list_empty in Hr.
      apply Permutation_nil_r in Hr. by subst order.
Qed.

Lemma MatchAnyIPConfigState_exact_witness :
  range_of sample_statuses (map_to_list sample_statuses) ∧
  MatchAnyIPConfigState sample_statuses (map_to_list sample_statuses)
    [ipConfigStatePredicate Available; ipConfigStatePredicate Allocated] ≡ₚ
  filter (λ v, Exists (λ p, p v = true)
                 [ipConfigStatePredicate Available; ipConfigStatePredicate Allocated])
    ((map_to_list sample_statuses).*2).
Proof.
  split; [unfold range_of; reflexivity |].
  apply (MatchAnyIPConfigState_exact sample_statuses
           (map_to_list sample_statuses)
           [ipConfigStatePredicate Available; ipConfigStatePredicate Allocated]).
  unfold range_of; reflexivity.
Defined.

(** The classifier on the map of the repository's own test. *)
Example MatchAnyIPConfigState_sample :
  MatchAnyIPConfigState sample_statuses (map_to_list sample_statuses)
    [ipConfigStatePredicate PendingRelease]
  = [mkIPConfigurationStatus "pending-release" PendingRelease].
Proof. vm_compute. reflexivity. Qed.

Lemma ipConfigStatePredicate_spec s v :
  ipConfigStatePredicate s v = true ↔ State v = s.
Proof. unfold ipConfigStatePredicate. apply bool_decide_eq_true. Qed.

(** C6. [PredicatesForStates] maps every recognised state of its input to
    the predicate of that state, in input order, and drops every other
    state; it has no error result.  The predicate of a state matches
    exactly the statuses in that state.  In particular a known state [k]
    together with an unknown state [u] (in either order) yields exactly
    one predicate, which matches exactly the statuses in state [k]. *)
Theorem PredicatesForStates_drops_unknown
    (states : list IPConfigState) (k u : IPConfigState) :
  known k = true → known u = false →
  PredicatesForStates states = ipConfigStatePredicate <$> List.filter known states
  ∧ (∀ s v, ipConfigStatePredicate s v = true ↔ State v = s)
  ∧ (∃ p, PredicatesForStates [k; u] = [p] ∧ ∀ v, p v = true ↔ State v = k)
  ∧ (∃ p, PredicatesForStates [u; k] = [p] ∧ ∀ v, p v = true ↔ State v = k).
Proof.
  intros Hk Hu. unfold PredicatesForStates.
  repeat split; try (rewrite fold_predicates_step; done);
    try apply ipConfigStatePredicate_spec.
  - exists (ipConfigStatePredicate k). rewrite fold_predicates_step. simpl.
    rewrite Hk, Hu. split; [done | intros v; apply ipConfigStatePredicate_spec].
  - exists (ipConfigStatePredicate k). rewrite fold_predicates_step. simpl.
    rewrite Hk, Hu. split; [done | intros v; apply ipConfigStatePredicate_spec].
Qed.

Lemma PredicatesForStates_drops_unknown_witness :
  ∃ p, PredicatesForStates [Allocated; "bogus"] = [p]
       ∧ ∀ v, p v = true ↔ State v = Allocated.
Proof.
  apply (PredicatesForStates_drops_unknown
           [Allocated; "bogus"; PendingRelease] Allocated "bogus");
    vm_compute; reflexivity.
Defined.

End FilterFacts.

(** ** The not-defined classification *)

Module ClassifyFacts.
Import kubecontroller Stated.

Lemma isNotDefined_loop_true err causes :
  isNotDefined_loop err causes false = true ↔
  unexpected_response causes ∧ apierrors.IsNotFound err = true.
Proof.
  unfold unexpected_response. induction causes as [|c causes IH]; simpl.
  - split; [done |]. intros [(c & Hc & _) _]. by apply elem_of_nil in Hc.
  - destruct (String.eqb_spec (metav1.Type_ c)
                metav1.CauseTypeUnexpectedServerResponse) as [Ht | Ht].
    + destruct (apierrors.IsNotFound err) eqn:Enf.
      * split; [| done]. intros _. split; [| done].
        exists c. split; [left | done].
      * rewrite IH. split; intros [_ Hf]; discriminate.
    + rewrite IH. split.
      * intros [(c' & Hc' & Ht') Hnf]. split; [| done].
        exists c'. split; [by right | done].
      * intros [(c' & Hc' & Ht') Hnf]. split; [| done].
        apply elem_of_cons in Hc' as [-> | Hc']; [done |]. by exists c'.
Qed.

Lemma isNotDefined_loops_agree err causes b :
  multitenantoperator.isNotDefined_loop err causes b =
  isNotDefined_loop err causes b.
Proof. induction causes as [|c causes IH]; simpl; [done |]. by rewrite IH. Qed.

Lemma isNotDefined_agree err :
  multitenantoperator.isNotDefined err = isNotDefined err.
Proof.
  destruct err as [[st | s] |]; simpl; try done.
Qed.

Lemma isNotDefined_status st d :
  metav1.Details st = Some d →
  isNotDefined (Some (StatusError st)) =
  Returns (isNotDefined_loop (Some (StatusError st)) (metav1.Causes d) false).
Proof.
  intros Hd. simpl. rewrite Hd.
  destruct (metav1.Causes d) as [|c l] eqn:E; simpl; [done |]. done.
Qed.

(** A status error whose [Details] pointer is nil makes both methods
    dereference it: they panic. *)
Lemma isNotDefined_nil_details st :
  metav1.Details st = None →
  isNotDefined (Some (StatusError st)) = Panics ∧
  multitenantoperator.isNotDefined (Some (StatusError st)) = Panics.
Proof. intros Hd. simpl. by rewrite Hd. Qed.

(** C8, on the code.  [isNotDefined err] returns true exactly when [err]
    is a status error whose details carry an "unexpected server response"
    cause and which classifies as not-found.  It returns false for the
    nil error, for every error that is not a status error, and for a
    status error (not-found included) whose details carry no such cause.
    But a status error that has no details at all, a generic not-found
    error among them, is not answered false: the method reads the causes
    through the nil [Details] pointer and panics.  The method of the
    multi-tenant controller computes the same. *)
Theorem isNotDefined_exact (err : option error) :
  (isNotDefined err = Returns true ↔
     ∃ st d, err = Some (StatusError st) ∧ metav1.Details st = Some d ∧
             unexpected_response (metav1.Causes d) ∧
             apierrors.IsNotFound err = true)
  ∧ isNotDefined None = Returns false
  ∧ (∀ s, isNotDefined (Some (errorString s)) = Returns false)
  ∧ (∀ st d, metav1.Details st = Some d →
             ¬ unexpected_response (metav1.Causes d) →
             isNotDefined (Some (StatusError st)) = Returns false)
  ∧ (isNotDefined err = Panics ↔
     ∃ st, err = Some (StatusError st) ∧ metav1.Details st = None)
  ∧ (apierrors.IsNotFound (Some Samples.bare_not_found_error) = true
     ∧ isNotDefined (Some Samples.bare_not_found_error) = Panics)
  ∧ multitenantoperator.isNotDefined err = isNotDefined err.
Proof.
  split; [| split; [done | split; [done | split; [| split; [| split]]]]].
  - destruct err as [[st | s] |].
    + destruct (metav1.Details st) as [d |] eqn:Hd.
      * rewrite (isNotDefined_status st d Hd). split.
        -- intros [= Hl]. apply isNotDefined_loop_true in Hl as [Hu Hnf].
           by exists st, d.
        -- intros (st' & d' & [= <-] & Hd' & Hu & Hnf).
           rewrite Hd in Hd'. injection Hd' as <-.
           f_equal. by apply isNotDefined_loop_true.
      * simpl. rewrite Hd. split; [done |].
        intros (st' & d' & [= <-] & Hd' & _). congruence.
    + split; [done |]. intros (st & d & [=] & _).
    + split; [done |]. intros (st & d & [=] & _).
  - intros st d Hd Hu. rewrite (isNotDefined_status st d Hd). f_equal.
    destruct (isNotDefined_loop _ _ _) eqn:El; [| done].
    apply isNotDefined_loop_true in El as [Hu' _]. done.
  - destruct err as [[st | s] |].
    + destruct (metav1.Details st) as [d |] eqn:Hd.
      * rewrite (isNotDefined_status st d Hd). split; [done |].
        intros (st' & [= <-] & Hd'). congruence.
      * split; [by exists st |]. intros _.
        by apply isNotDefined_nil_details.
    + split; [done |]. intros (st & [=] & _).
    + split; [done |]. intros (st & [=] & _).
  - done.
  - apply isNotDefined_agree.
Qed.

Lemma isNotDefined_exact_witness :
  apierrors.IsNotFound (Some Samples.bare_not_found_error) = true ∧
  isNotDefined (Some Samples.bare_not_found_error) = Panics ∧
  multitenantoperator.isNotDefined (Some Samples.bare_not_found_error) = Panics.
Proof.
  destruct (isNotDefined_exact (Some Samples.bare_not_found_error))
    as (_ & _ & _ & _ & Hpanics & [Hnf _] & Hboth).
  split; [exact Hnf |].
  assert (isNotDefined (Some Samples.bare_not_found_error) = Panics) as Hp.
  { apply Hpanics. eexists. split; reflexivity. }
  split; [exact Hp |]. by rewrite Hboth.
Defined.

(** The two errors of the spec's fatal-classification scenario. *)
Example isNotDefined_samples :
  isNotDefined (Some Samples.kind_not_defined_error) = Returns true ∧
  isNotDefined (Some Samples.not_found_error) = Returns false ∧
  isNotDefined (Some Samples.refused_error) = Returns false.
Proof. repeat split. Qed.

End ClassifyFacts.

(** ** Cold start *)

Module ColdStartFacts.
Section Facts.
Context `{ResourceTypes}.
Import kubecontroller.

#[local] Arguments isNotDefined : simpl never.

Ltac run_method :=
  unfold Run.run, InitRequestController, StartRequestController, initCNS,
    getNodeNetConfigDirect, getAllPods, ReconcileNCState, Lock, Unlock,
    mbind, M_bind, Run.defer, Run.bind, Run.get, Run.emit, Run.modify, Run.ret, Run.stop,
    Run.events; simpl.

(** The direct read never hands back a resource together with an error. *)
Lemma getNodeNetConfigDirect_nil_on_error env name namespace m cfg err :
  (getNodeNetConfigDirect env name namespace m).2 = Returns (cfg, Some err) →
  cfg = None.
Proof.
  run_method.
  destruct (directCRDClient_Get env name namespace crdTypeName) as [c [e |]];
    simpl; congruence.
Qed.

(** Whenever the direct read fails and the error is not classified as
    "not defined", [initCNS] returns nil right after the read. *)
Lemma initCNS_read_error env rc cfg err :
  directCRDClient_Get env (nodeName rc) k8sNamespace crdTypeName = (cfg, Some err) →
  isNotDefined (Some err) = Returns false →
  Run.run (initCNS env) rc =
    (Run.mkMachine rc
       [(EvDirectCRDGet (nodeName rc) k8sNamespace crdTypeName, rc)],
     Returns None).
Proof.
  intros Hget Hnd. run_method. rewrite Hget. simpl. rewrite Hnd. done.
Qed.

(** C9. When the resource is read successfully and its status has no
    network containers, the run of [initCNS] consists of the direct read
    and one call [ReconcileNCState(nil, nil, scaler, spec)] with the
    scaler and spec of the resource, and [initCNS] returns what that call
    returns; the pods are not listed and the status is not translated. *)
Theorem initCNS_no_network_containers
    (env : collaborators) (rc : requestController) (cfg : nnc.NodeNetworkConfig) :
  directCRDClient_Get env (nodeName rc) k8sNamespace crdTypeName = (Some cfg, None) →
  nnc.NetworkContainers (nnc.Status cfg) = [] →
  Run.run (initCNS env) rc =
    (Run.mkMachine rc
       [(EvDirectCRDGet (nodeName rc) k8sNamespace crdTypeName, rc);
        (EvReconcileNCState None None
           (nnc.Scaler (nnc.Status cfg)) (nnc.Spec cfg), rc)],
     Returns (CNSClient_ReconcileNCState env None None
                (nnc.Scaler (nnc.Status cfg)) (nnc.Spec cfg)))
  ∧ (EvCRDStatusToNCRequest ∉ Run.trace (Run.run (initCNS env) rc))
  ∧ (∀ namespace node,
       EvListPods namespace node ∉ Run.trace (Run.run (initCNS env) rc)).
Proof.
  intros Hget Hnc.
  assert (Run.run (initCNS env) rc =
    (Run.mkMachine rc
       [(EvDirectCRDGet (nodeName rc) k8sNamespace crdTypeName, rc);
        (EvReconcileNCState None None
           (nnc.Scaler (nnc.Status cfg)) (nnc.Spec cfg), rc)],
     Returns (CNSClient_ReconcileNCState env None None
                (nnc.Scaler (nnc.Status cfg)) (nnc.Spec cfg)))) as Hrun.
  { run_method. rewrite Hget. simpl. rewrite Hnc. done. }
  rewrite Hrun. split; [done |]. unfold Run.trace, Run.events; simpl.
  split; [| intros namespace node];
    rewrite !elem_of_cons, elem_of_nil; intros [? | [? | []]]; discriminate.
Qed.

(** C2, on the code.  When the direct read fails with a plain not-found
    error, [initCNS] returns no error right after the read and
    [ReconcileNCState] is not called at all.  The source announces the
    push ("If instance of crd is not found, pass nil to CNSClient") and
    has the call for it, as the path for a resource without network
    containers has; but [getNodeNetConfigDirect] hands back a nil
    resource with every error, so the check for a nil resource that
    stands before that call returns first, and the call is never
    reached. *)
Theorem initCNS_not_found_returns_nil
    (env : collaborators) (rc : requestController)
    (cfg : option nnc.NodeNetworkConfig) (err : error) :
  directCRDClient_Get env (nodeName rc) k8sNamespace crdTypeName = (cfg, Some err) →
  apierrors.IsNotFound (Some err) = true →
  isNotDefined (Some err) = Returns false →
  Run.run (initCNS env) rc =
    (Run.mkMachine rc
       [(EvDirectCRDGet (nodeName rc) k8sNamespace crdTypeName, rc)],
     Returns None)
  ∧ (∀ ncRequest podInfoByIP scaler spec,
       EvReconcileNCState ncRequest podInfoByIP scaler spec
         ∉ Run.trace (Run.run (initCNS env) rc)).
Proof.
  intros Hget _ Hnd. rewrite (initCNS_read_error env rc cfg err Hget Hnd).
  split; [done |]. intros ? ? ? ?. unfold Run.trace, Run.events; simpl.
  rewrite elem_of_cons, elem_of_nil. intros [? | []]; discriminate.
Qed.

(** For every read error that is not classified as "not defined",
    [InitRequestController] (on a free mutex) returns nil and sets
    [initialized]: the error is dropped. *)
Lemma InitRequestController_read_error env rc cfg err :
  lock rc = false →
  directCRDClient_Get env (nodeName rc) k8sNamespace crdTypeName = (cfg, Some err) →
  isNotDefined (Some err) = Returns false →
  Run.result (Run.run (InitRequestController env) rc) = Returns None ∧
  initialized (Run.ctl (fst (Run.run (InitRequestController env) rc))) = true.
Proof.
  destruct rc as [n i s l]. simpl. intros -> Hget Hnd.
  run_method. rewrite Hget. simpl. rewrite Hnd. done.
Qed.

End Facts.

Import kubecontroller Samples.
#[local] Existing Instance sample_types.

Lemma initCNS_no_network_containers_witness :
  Run.run (initCNS (sample_env (Some empty_config, None) None)) fresh_rc =
    (Run.mkMachine fresh_rc
       [(EvDirectCRDGet "node-0" "kube-system" "nodenetworkconfigs", fresh_rc);
        (EvReconcileNCState None None 8%Z 16%Z, fresh_rc)],
     Returns None).
Proof.
  apply (initCNS_no_network_containers
           (sample_env (Some empty_config, None) None) fresh_rc empty_config);
    reflexivity.
Defined.

Lemma initCNS_not_found_returns_nil_witness :
  Run.run (initCNS (sample_env (None, Some not_found_error) None)) fresh_rc =
    (Run.mkMachine fresh_rc
       [(EvDirectCRDGet "node-0" "kube-system" "nodenetworkconfigs", fresh_rc)],
     Returns None).
Proof.
  apply (initCNS_not_found_returns_nil
           (sample_env (None, Some not_found_error) None) fresh_rc
           None not_found_error); reflexivity.
Defined.

(** The property as C2 states it does not hold of the code: on a plain
    not-found read nothing is pushed. *)
Lemma not_found_pushes_nothing :
  ¬ Stated.not_found_pushes_nil_request
      (sample_env (None, Some not_found_error) None) fresh_rc.
Proof.
  intros Hstated.
  destruct (Hstated None not_found_error) as (_ & scaler & spec & Hin);
    [reflexivity | split; reflexivity |].
  vm_compute in Hin.
  apply elem_of_cons in Hin as [Heq | Hin]; [discriminate |].
  by apply elem_of_nil in Hin.
Qed.

(** C3, on the code.  The direct read fails with "connection refused",
    which is neither a not-defined nor a not-found error; yet
    [InitRequestController] returns nil and sets [initialized]: the nil
    check on the resource comes before the branch that returns the error,
    and the resource is nil whenever the read fails. *)
Theorem InitRequestController_swallows_read_error :
  isNotDefined (Some refused_error) = Returns false ∧
  apierrors.IsNotFound (Some refused_error) = false ∧
  Run.run (InitRequestController (sample_env (None, Some refused_error) None))
          fresh_rc =
    (Run.mkMachine (set_initialized true fresh_rc)
       [(EvLock, set_lock true fresh_rc);
        (EvDirectCRDGet "node-0" "kube-system" "nodenetworkconfigs",
         set_lock true fresh_rc);
        (EvUnlock, set_initialized true fresh_rc)],
     Returns None).
Proof. repeat split. Qed.

End ColdStartFacts.

(** ** The pod map of cold start *)

Module PodMapFacts.
Import kubecontroller Stated.

Lemma podInfoByIP_step_lookup m pod ip :
  podInfoByIP_step m pod !! ip =
  if decide (container_pod_at ip pod) then Some (entry_of pod) else m !! ip.
Proof.
  unfold podInfoByIP_step.
  destruct (decide (container_pod_at ip pod)) as [[Hh <-] | Hn].
  - rewrite Hh. simpl. by rewrite lookup_insert_eq.
  - destruct (corev1.HostNetwork (corev1.Spec pod)) eqn:Hh; simpl; [done |].
    rewrite lookup_insert_ne; [done |]. intros Hip. by apply Hn.
Qed.

Lemma snoc_decompose {A} (l l1 l2 : list A) (x p : A) :
  l ++ [x] = l1 ++ p :: l2 →
  (l2 = [] ∧ l1 = l ∧ p = x) ∨ (∃ l2', l2 = l2' ++ [x] ∧ l = l1 ++ p :: l2').
Proof.
  intros Heq. destruct l2 as [|y l2' _] using rev_ind.
  - left. apply (app_inj_tail l l1 x p) in Heq as [-> ->]. done.
  - right. exists l2'. split; [| ].
    + change (l1 ++ p :: l2' ++ [y]) with (l1 ++ (p :: l2') ++ [y]) in Heq.
      rewrite app_assoc in Heq. apply app_inj_tail in Heq as [_ ->]. done.
    + change (l1 ++ p :: l2' ++ [y]) with (l1 ++ (p :: l2') ++ [y]) in Heq.
      rewrite app_assoc in Heq. by apply app_inj_tail in Heq as [-> _].
Qed.

(** The last container pod at an address owns the entry of that address. *)
Lemma fold_podInfoByIP_last pods ip info :
  fold_left podInfoByIP_step pods ∅ !! ip = Some info ↔
  ∃ l1 pod l2, pods = l1 ++ pod :: l2 ∧ container_pod_at ip pod ∧
               info = entry_of pod ∧
               ∀ q, q ∈ l2 → ¬ container_pod_at ip q.
Proof.
  induction pods as [|x l IH] using rev_ind.
  - simpl. rewrite lookup_empty. split; [done |].
    intros (l1 & p & l2 & Heq & _). by destruct l1.
  - rewrite fold_left_app. simpl. rewrite podInfoByIP_step_lookup.
    destruct (decide (container_pod_at ip x)) as [Hx | Hx].
    + split.
      * intros [= <-]. exists l, x, []. repeat split; try apply Hx.
        intros q Hq. by apply elem_of_nil in Hq.
      * intros (l1 & p & l2 & Heq & Hp & -> & Hlast).
        apply snoc_decompose in Heq as [(-> & -> & ->) | (l2' & -> & ->)];
          [done |].
        exfalso. apply (Hlast x); [| done].
        apply elem_of_app. right. by left.
    + rewrite IH. split.
      * intros (l1 & p & l2 & -> & Hp & -> & Hlast).
        exists l1, p, (l2 ++ [x]). rewrite <- app_assoc. repeat split;
          try apply Hp.
        intros q Hq. apply elem_of_app in Hq as [Hq | Hq]; [by apply Hlast |].
        apply list_elem_of_singleton in Hq as ->. done.
      * intros (l1 & p & l2 & Heq & Hp & -> & Hlast).
        apply snoc_decompose in Heq as [(-> & -> & ->) | (l2' & -> & ->)];
          [done |].
        exists l1, p, l2'. repeat split; try apply Hp.
        intros q Hq. apply Hlast. apply elem_of_app. by left.
Qed.

Lemma fold_podInfoByIP_keys pods ip :
  is_Some (fold_left podInfoByIP_step pods ∅ !! ip) ↔
  ∃ pod, pod ∈ pods ∧ container_pod_at ip pod.
Proof.
  induction pods as [|x l IH] using rev_ind.
  - simpl. rewrite lookup_empty. split; [by intros [? ?] |].
    intros (p & Hp & _). by apply elem_of_nil in Hp.
  - rewrite fold_left_app. simpl. rewrite podInfoByIP_step_lookup.
    destruct (decide (container_pod_at ip x)) as [Hx | Hx].
    + split; [| by eexists]. intros _. exists x. split; [| done].
      apply elem_of_app. right. by left.
    + rewrite IH. split.
      * intros (p & Hp & Hc). exists p. split; [| done].
        apply elem_of_app. by left.
      * intros (p & Hp & Hc). apply elem_of_app in Hp as [Hp | Hp];
          [by exists p |].
        apply list_elem_of_singleton in Hp as ->. done.
Qed.

(** C7, as the code has it.  For every pod list, the keys of the pod map
    are exactly the addresses of the pods that are not on the host
    network, and each key maps to the name and namespace of the last such
    pod of the list with that address; a host-network pod adds no entry.
    The map is nil exactly for the empty list.  For a host-network pod at
    10.0.0.5 and a container pod at 10.244.1.2 the map holds only the
    10.244.1.2 entry. *)
Theorem podInfoByIP_excludes_host_network (pods : list corev1.Pod) :
  (∀ ip, is_Some (default ∅ (podInfoByIP_of pods) !! ip) ↔
         ∃ pod, pod ∈ pods ∧ container_pod_at ip pod)
  ∧ (∀ ip info,
       default ∅ (podInfoByIP_of pods) !! ip = Some info ↔
       ∃ l1 pod l2, pods = l1 ++ pod :: l2 ∧ container_pod_at ip pod ∧
                    info = entry_of pod ∧
                    ∀ q, q ∈ l2 → ¬ container_pod_at ip q)
  ∧ (podInfoByIP_of pods = None ↔ pods = [])
  ∧ podInfoByIP_of [Samples.host_pod; Samples.container_pod] =
      Some {[ "10.244.1.2" := cns.mkKubernetesPodInfo "web" "default" ]}.
Proof.
  assert (default ∅ (podInfoByIP_of pods) = fold_left podInfoByIP_step pods ∅)
    as ->.
  { unfold podInfoByIP_of. by destruct pods. }
  split; [intros ip; apply fold_podInfoByIP_keys |].
  split; [intros ip info; apply fold_podInfoByIP_last |].
  split; [| done].
  unfold podInfoByIP_of. by destruct pods.
Qed.

(** C7, as stated, fails: of two container pods that share an address
    (here two pods still without one) only the last has its entry. *)
Lemma shared_address_keeps_one_entry :
  ¬ Stated.one_entry_per_container_pod
      [Samples.pending_pod_a; Samples.pending_pod_b].
Proof.
  intros Hstated.
  destruct (Hstated Samples.pending_pod_a) as [_ Hentry]; [by left |].
  specialize (Hentry eq_refl). vm_compute in Hentry. discriminate.
Qed.

End PodMapFacts.

(** ** The lifecycle: initialize, then start *)

Module LifecycleFacts.
Section Facts.
Context `{ResourceTypes}.
Import kubecontroller.

#[local] Arguments isNotDefined : simpl never.

Ltac run_method :=
  unfold Run.run, Run.trace, Run.snapshots, Run.result, Run.events,
    InitRequestController, StartRequestController, initCNS,
    getNodeNetConfigDirect, getAllPods, ReconcileNCState, Lock, Unlock,
    multitenantoperator.StartMultiTenantController,
    multitenantoperator.Lock, multitenantoperator.Unlock,
    mbind, M_bind, Run.defer, Run.bind, Run.get, Run.emit, Run.modify,
    Run.ret, Run.stop; simpl.

(** [initCNS] does not write to the controller struct. *)
Lemma initCNS_keeps_controller env (m : Run.machine event requestController) :
  Run.ctl (fst (initCNS env m)) = Run.ctl m.
Proof.
  run_method. repeat (case_match; simplify_eq; simpl; try done).
Qed.

(** What a run of [StartRequestController] on an initialized controller
    with a free mutex logs: the manager is started last. *)
Lemma StartRequestController_log env rc :
  lock rc = false → initialized rc = true →
  Run.snapshots (Run.run (StartRequestController env) rc) =
    [(EvLock, set_lock true rc);
     (EvUnlock, set_Started true rc);
     (EvMgrStart, set_Started true rc)].
Proof.
  destruct rc as [n i s l]. simpl. intros -> ->. run_method.
  repeat (case_match; simpl; try done).
Qed.

Lemma StartRequestController_refused env rc :
  lock rc = false → initialized rc = false →
  Run.run (StartRequestController env) rc =
    (Run.mkMachine rc [(EvLock, set_lock true rc); (EvUnlock, rc)],
     Returns (Some not_initialized_error)).
Proof. destruct rc as [n i s l]. simpl. intros -> ->. done. Qed.

(** C4. On a controller whose mutex is free: while [initialized] is false
    [StartRequestController] returns an error, leaves the struct as it
    was, and does not start the manager; when [initialized] is true it
    starts the manager; and after a run of [InitRequestController] that
    returned nil, [initialized] is true and a following
    [StartRequestController] starts the manager. *)
Theorem StartRequestController_gated
    (env : collaborators) (rc : requestController) :
  lock rc = false →
  (initialized rc = false →
     Run.run (StartRequestController env) rc =
       (Run.mkMachine rc [(EvLock, set_lock true rc); (EvUnlock, rc)],
        Returns (Some not_initialized_error))
     ∧ (EvMgrStart ∉ Run.trace (Run.run (StartRequestController env) rc)))
  ∧ (initialized rc = true →
     EvMgrStart ∈ Run.trace (Run.run (StartRequestController env) rc))
  ∧ (Run.result (Run.run (InitRequestController env) rc) = Returns None →
     initialized (Run.ctl (fst (Run.run (InitRequestController env) rc))) = true
     ∧ EvMgrStart ∈
         Run.trace (Run.run (StartRequestController env)
                      (Run.ctl (fst (Run.run (InitRequestController env) rc))))).
Proof.
  intros Hfree. split; [| split].
  - intros Hinit. rewrite (StartRequestController_refused env rc Hfree Hinit).
    split; [done |]. unfold Run.trace, Run.events; simpl.
    rewrite !elem_of_cons, elem_of_nil. intros [? | [? | []]]; discriminate.
  - intros Hinit. unfold Run.trace, Run.events.
    pose proof (StartRequestController_log env rc Hfree Hinit) as Hlog.
    unfold Run.snapshots in Hlog. rewrite Hlog. simpl.
    right. right. left.
  - intros Hres.
    assert (∃ rc', Run.ctl (fst (Run.run (InitRequestController env) rc)) = rc'
                   ∧ lock rc' = false ∧ initialized rc' = true)
      as (rc' & -> & Hfree' & Hinit').
    { revert Hres. destruct rc as [n i s l]. simpl in Hfree. subst l.
      unfold Run.run, Run.result, InitRequestController, Lock, Unlock,
        mbind, M_bind, Run.defer, Run.bind, Run.get, Run.emit, Run.modify,
        Run.ret, Run.stop. simpl.
      pose proof (initCNS_keeps_controller env
        (Run.mkMachine (set_lock true (mkRequestController n i s false))
           [(EvLock, set_lock true (mkRequestController n i s false))]))
        as Hkeep.
      unfold set_lock in *. simpl in *.
      destruct (initCNS env _) as [[c lg] [[e |] | code | |]];
        simpl in *; subst c; simpl; try discriminate.
      intros _. eexists. split; [reflexivity |]. done. }
    split; [done |]. unfold Run.trace, Run.events.
    pose proof (StartRequestController_log env rc' Hfree' Hinit') as Hlog.
    unfold Run.snapshots in Hlog. rewrite Hlog. simpl.
    right. right. left.
Qed.

(** The same for the multi-tenant controller, which has no gate. *)
Lemma StartMultiTenantController_log mgr_Start
    (mtc : multitenantoperator.multiTenantController) :
  multitenantoperator.lock mtc = false →
  Run.snapshots
    (Run.run (multitenantoperator.StartMultiTenantController mgr_Start) mtc) =
    [(EvLock, multitenantoperator.set_lock true mtc);
     (EvUnlock, multitenantoperator.set_Started true mtc);
     (EvMgrStart, multitenantoperator.set_Started true mtc)].
Proof.
  destruct mtc as [n s l]. simpl. intros ->. run_method.
  repeat (case_match; simpl; try done).
Qed.

(** C5, as the code has it.  [StartRequestController] and
    [StartMultiTenantController] set [Started] under the mutex, before
    they hand over to the manager, and never after.  On a controller not
    yet started, with a free mutex:
    - at every point of a run at which the manager has been started,
      [Started] is already true, and in the request controller [Started]
      is never true while [initialized] is false;
    - the log of a start that is not refused is exactly: the mutex is
      taken ([Started] still false), the mutex is released ([Started]
      already true: the write was made while the mutex was held), the
      manager is started (the struct as at the release: nothing is
      written after it); a refused start writes nothing;
    - hence there is a point of the run, the release of the mutex, at
      which the mutex is free and [Started] is true although the manager
      has not been started. *)
Theorem Started_set_before_manager
    (env : collaborators) (rc : requestController)
    (mgr_Start : option error) (mtc : multitenantoperator.multiTenantController) :
  Started rc = false → lock rc = false →
  multitenantoperator.Started mtc = false →
  multitenantoperator.lock mtc = false →
  (∀ i e c,
     Run.snapshots (Run.run (StartRequestController env) rc) !! i = Some (e, c) →
     (EvMgrStart ∈
        (take (S i) (Run.snapshots (Run.run (StartRequestController env) rc))).*1 →
      Started c = true)
     ∧ (Started c = true → initialized c = true))
  ∧ (∀ i e c,
     Run.snapshots
       (Run.run (multitenantoperator.StartMultiTenantController mgr_Start) mtc)
       !! i = Some (e, c) →
     EvMgrStart ∈
       (take (S i)
          (Run.snapshots
             (Run.run (multitenantoperator.StartMultiTenantController mgr_Start)
                mtc))).*1 →
     multitenantoperator.Started c = true)
  ∧ (initialized rc = true →
     Run.snapshots (Run.run (StartRequestController env) rc) =
       [(EvLock, mkRequestController (nodeName rc) true false true);
        (EvUnlock, mkRequestController (nodeName rc) true true false);
        (EvMgrStart, mkRequestController (nodeName rc) true true false)])
  ∧ (initialized rc = false →
     Run.snapshots (Run.run (StartRequestController env) rc) =
       [(EvLock, mkRequestController (nodeName rc) false false true);
        (EvUnlock, rc)])
  ∧ Run.snapshots
      (Run.run (multitenantoperator.StartMultiTenantController mgr_Start) mtc) =
      [(EvLock,
        multitenantoperator.mkMultiTenantController
          (multitenantoperator.nodeName mtc) false true);
       (EvUnlock,
        multitenantoperator.mkMultiTenantController
          (multitenantoperator.nodeName mtc) true false);
       (EvMgrStart,
        multitenantoperator.mkMultiTenantController
          (multitenantoperator.nodeName mtc) true false)]
  ∧ (initialized rc = true →
     ∃ i e c,
       Run.snapshots (Run.run (StartRequestController env) rc) !! i = Some (e, c)
       ∧ e = EvUnlock ∧ lock c = false ∧ Started c = true
       ∧ (EvMgrStart ∉
            (take (S i)
               (Run.snapshots (Run.run (StartRequestController env) rc))).*1))
  ∧ (∃ i e c,
       Run.snapshots
         (Run.run (multitenantoperator.StartMultiTenantController mgr_Start) mtc)
         !! i = Some (e, c)
       ∧ e = EvUnlock ∧ multitenantoperator.lock c = false
       ∧ multitenantoperator.Started c = true
       ∧ (EvMgrStart ∉
            (take (S i)
               (Run.snapshots
                  (Run.run
                     (multitenantoperator.StartMultiTenantController mgr_Start)
                     mtc))).*1)).
Proof.
  intros Hs Hl Hms Hml.
  rewrite (StartMultiTenantController_log mgr_Start mtc Hml).
  split; [| split; [| split; [| split; [| split; [| split]]]]].
  - destruct (initialized rc) eqn:Hinit.
    + rewrite (StartRequestController_log env rc Hl Hinit).
      intros [|[|[|i]]] e c; simpl; intros [= <- <-]; simpl;
        (split; [| by rewrite ?Hinit]); try done.
      * rewrite elem_of_cons, elem_of_nil. intros [? | []]; discriminate.
    + unfold Run.snapshots.
      rewrite (StartRequestController_refused env rc Hl Hinit). simpl.
      intros [|[|i]] e c; simpl; intros [= <- <-]; simpl;
        rewrite ?Hs; (split; [| done]);
        rewrite ?elem_of_cons, elem_of_nil; intros Hin;
        repeat (destruct Hin as [Hin | Hin]; try discriminate); done.
  - intros [|[|[|i]]] e c; simpl; intros [= <- <-]; simpl; try done.
    rewrite elem_of_cons, elem_of_nil. intros [? | []]; discriminate.
  - intros Hinit. rewrite (StartRequestController_log env rc Hl Hinit).
    destruct rc as [n i s l]. simpl in *. by subst.
  - intros Hinit. unfold Run.snapshots.
    rewrite (StartRequestController_refused env rc Hl Hinit).
    destruct rc as [n i s l]. simpl in *. by subst.
  - destruct mtc as [n s l]. simpl in *. by subst.
  - intros Hinit. rewrite (StartRequestController_log env rc Hl Hinit).
    exists 1%nat, EvUnlock, (set_Started true rc).
    split; [done |]. split; [done |].
    split; [by destruct rc |]. split; [by destruct rc |].
    simpl. rewrite !elem_of_cons, elem_of_nil.
    intros [? | [? | []]]; discriminate.
  - exists 1%nat, EvUnlock, (multitenantoperator.set_Started true mtc).
    split; [done |]. split; [done |].
    split; [by destruct mtc |]. split; [by destruct mtc |].
    simpl. rewrite !elem_of_cons, elem_of_nil.
    intros [? | [? | []]]; discriminate.
Qed.

End Facts.

Import kubecontroller Samples.
#[local] Existing Instance sample_types.

Lemma StartRequestController_gated_witness :
  Run.run (StartRequestController (sample_env (Some empty_config, None) None))
          fresh_rc =
    (Run.mkMachine fresh_rc
       [(EvLock, set_lock true fresh_rc); (EvUnlock, fresh_rc)],
     Returns (Some not_initialized_error)).
Proof.
  destruct (StartRequestController_gated
              (sample_env (Some empty_config, None) None) fresh_rc)
    as [Hrefused _]; [reflexivity |].
  apply Hrefused. reflexivity.
Defined.

Lemma Started_set_before_manager_witness :
  Started initialized_rc = false ∧ lock initialized_rc = false ∧
  Started (set_Started true initialized_rc) = true.
Proof.
  split; [reflexivity |]. split; [reflexivity |].
  pose proof (Started_set_before_manager
                (sample_env (Some empty_config, None) None) initialized_rc
                None fresh_mtc eq_refl eq_refl eq_refl eq_refl) as [Hrc _].
  destruct (Hrc 2 EvMgrStart (set_Started true initialized_rc) eq_refl)
    as [Hset _].
  apply Hset. do 2 apply list_elem_of_further. apply list_elem_of_here.
Defined.

(** C5, as stated, fails: once [StartRequestController] has released the
    mutex, [IsStarted] answers true although the manager has not been
    started yet. *)
Lemma IsStarted_true_before_manager_runs :
  ¬ Stated.never_started_before_manager Started lock
      (Run.snapshots
         (Run.run (StartRequestController
                     (sample_env (Some empty_config, None) None))
            initialized_rc)).
Proof.
  intros Hstated.
  specialize (Hstated 1 EvUnlock (set_Started true initialized_rc)
                eq_refl eq_refl eq_refl).
  vm_compute in Hstated.
  apply elem_of_cons in Hstated as [? | Hstated]; [discriminate |].
  apply elem_of_cons in Hstated as [? | Hstated]; [discriminate |].
  by apply elem_of_nil in Hstated.
Qed.

(** The same for the multi-tenant controller. *)
Lemma multitenant_flag_set_before_manager_runs :
  ¬ Stated.never_started_before_manager
      multitenantoperator.Started multitenantoperator.lock
      (Run.snapshots
         (Run.run (multitenantoperator.StartMultiTenantController None)
            fresh_mtc)).
Proof.
  intros Hstated.
  specialize (Hstated 1 EvUnlock
                (multitenantoperator.set_Started true fresh_mtc)
                eq_refl eq_refl eq_refl).
  vm_compute in Hstated.
  apply elem_of_cons in Hstated as [? | Hstated]; [discriminate |].
  apply elem_of_cons in Hstated as [? | Hstated]; [discriminate |].
  by apply elem_of_nil in Hstated.
Qed.

End LifecycleFacts.

(** ** The CNI state converter *)

Module CNIFacts.
Import CNI Stated Samples.

Section Facts.
Variable IP_String : list Z → string.

Lemma cni_loop_panics order m :
  (∃ kv, kv ∈ order ∧ IPAddresses kv.2 = []) →
  cni_loop IP_String order m = Panics.
Proof.
  revert m. induction order as [|[k ep] order IH]; intros m (kv & Hin & Hnil).
  - by apply elem_of_nil in Hin.
  - simpl. destruct (IPAddresses ep) as [|first rest] eqn:Hep; [done |].
    apply IH. apply elem_of_cons in Hin as [-> | Hin]; [| by exists kv].
    simpl in Hnil. congruence.
Qed.

Lemma cni_loop_returns order m :
  (∀ kv, kv ∈ order → IPAddresses kv.2 ≠ []) →
  ∃ m', cni_loop IP_String order m = Returns m'
    ∧ (∀ key, is_Some (m' !! key) ↔
              is_Some (m !! key) ∨
              ∃ kv, kv ∈ order ∧ first_key IP_String kv.2 = Some key)
    ∧ (∀ key info, m' !! key = Some info →
              m !! key = Some info ∨
              ∃ kv, kv ∈ order ∧ first_key IP_String kv.2 = Some key ∧
                    info = info_of kv.2).
Proof.
  revert m. induction order as [|[k ep] order IH]; intros m Hne.
  - exists m. split; [done |]. split.
    + intros key. split; [by left |]. intros [? | (kv & Hin & _)]; [done |].
      by apply elem_of_nil in Hin.
    + intros key info ?. by left.
  - simpl. destruct (IPAddresses ep) as [|first rest] eqn:Hep.
    { exfalso. apply (Hne (k, ep)); [by left | done]. }
    destruct (IH (<[IP_String (IP first) := info_of ep]> m))
      as (m' & Hrun & Hkeys & Hvals).
    { intros kv Hin. apply Hne. by right. }
    exists m'. split; [exact Hrun |].
    assert (first_key IP_String ep = Some (IP_String (IP first))) as Hfk.
    { unfold first_key. by rewrite Hep. }
    split.
    + intros key. rewrite Hkeys. split.
      * intros [Hm | (kv & Hin & Hk)].
        -- destruct (decide (IP_String (IP first) = key)) as [<- | Hd].
           ++ right. exists (k, ep). split; [by left | done].
           ++ left. by rewrite lookup_insert_ne in Hm.
        -- right. exists kv. split; [by right | done].
      * intros [Hm | (kv & Hin & Hk)].
        -- left. destruct (decide (IP_String (IP first) = key)) as [<- | Hd].
           ++ rewrite lookup_insert_eq. by eexists.
           ++ by rewrite lookup_insert_ne.
        -- apply elem_of_cons in Hin as [-> | Hin].
           ++ left. simpl in Hk. rewrite Hfk in Hk. injection Hk as <-.
              rewrite lookup_insert_eq. by eexists.
           ++ right. by exists kv.
    + intros key info Hlk. destruct (Hvals key info Hlk) as [Hm | (kv & Hin & Hk & Hi)].
      * destruct (decide (IP_String (IP first) = key)) as [<- | Hd].
        -- rewrite lookup_insert_eq in Hm. injection Hm as <-.
           right. exists (k, ep). split; [by left | done].
        -- left. by rewrite lookup_insert_ne in Hm.
      * right. exists kv. split; [by right | done].
Qed.

(** C10. [cniStateToPodInfoByIP] returns exactly when every container
    interface of the state has at least one address.  Then, whatever
    order the range loop visits the interfaces in, the keys of the
    returned map are exactly the strings of the first addresses of the
    interfaces (one entry per distinct first address), and each entry is
    the pod info of an interface with that first address.  When some
    interface has no address, indexing [IPAddresses[0]] panics. *)
Theorem cniStateToPodInfoByIP_total_iff
    (state : State) (order : list (string * PodNetworkInterfaceInfo)) :
  range_of (ContainerInterfaces state) order →
  ((∀ k endpoint, ContainerInterfaces state !! k = Some endpoint →
                  IPAddresses endpoint ≠ []) →
   ∃ m, cniStateToPodInfoByIP IP_String (Some state) order = Returns m
     ∧ (∀ key, is_Some (m !! key) ↔
               ∃ k endpoint, ContainerInterfaces state !! k = Some endpoint ∧
                             first_key IP_String endpoint = Some key)
     ∧ (∀ key info, m !! key = Some info →
               ∃ k endpoint, ContainerInterfaces state !! k = Some endpoint ∧
                             first_key IP_String endpoint = Some key ∧
                             info = info_of endpoint))
  ∧ ((∃ k endpoint, ContainerInterfaces state !! k = Some endpoint ∧
                    IPAddresses endpoint = []) →
     cniStateToPodInfoByIP IP_String (Some state) order = Panics).
Proof.
  intros Hr.
  assert (∀ k ep, (k, ep) ∈ order ↔ ContainerInterfaces state !! k = Some ep)
    as Hvisit.
  { intros k ep. by apply range_of_lookup. }
  split.
  - intros Hne.
    destruct (cni_loop_returns order ∅) as (m & Hrun & Hkeys & Hvals).
    { intros [k ep] Hin. simpl. apply (Hne k). by apply Hvisit. }
    exists m. split; [exact Hrun |]. split.
    + intros key. rewrite Hkeys, lookup_empty. split.
      * intros [[? ?] | ([k ep] & Hin & Hk)]; [done |].
        exists k, ep. split; [| done]. by apply Hvisit.
      * intros (k & ep & Hlk & Hk). right. exists (k, ep).
        split; [| done]. by apply Hvisit.
    + intros key info Hlk.
      destruct (Hvals key info Hlk) as [Hm | ([k ep] & Hin & Hk & Hi)].
      * by rewrite lookup_empty in Hm.
      * exists k, ep. split; [| done]. by apply Hvisit.
  - intros (k & ep & Hlk & Hnil). simpl. apply cni_loop_panics.
    exists (k, ep). split; [| done]. by apply Hvisit.
Qed.

End Facts.

Lemma cniStateToPodInfoByIP_total_iff_witness :
  cniStateToPodInfoByIP sample_IP_String (Some sample_state_no_address)
    (map_to_list (ContainerInterfaces sample_state_no_address)) = Panics.
Proof.
  destruct (cniStateToPodInfoByIP_total_iff sample_IP_String
              sample_state_no_address
              (map_to_list (ContainerInterfaces sample_state_no_address)))
    as [_ Hpanics]; [unfold range_of; reflexivity |].
  apply Hpanics. exists "eth0". eexists. split; reflexivity.
Defined.

Example cniStateToPodInfoByIP_sample :
  cniStateToPodInfoByIP sample_IP_String (Some sample_state)
    (map_to_list (ContainerInterfaces sample_state))
  = Returns {[ "10.244.1.2" := NewPodInfo "" "ep-eth0" "web" "default" ]}.
Proof. vm_compute. reflexivity. Qed.

(** A nil state pointer is dereferenced. *)
Example cniStateToPodInfoByIP_nil :
  cniStateToPodInfoByIP sample_IP_String None [] = Panics.
Proof. reflexivity. Qed.

End CNIFacts.

(** * Further properties of the code *)

(** ** Cold start, the remaining paths *)

Module ColdStartMore.
Section Facts.
Context `{ResourceTypes}.
Import kubecontroller Vocabulary.

#[local] Arguments isNotDefined : simpl never.

Ltac run_method :=
  unfold Run.run, Run.trace, Run.snapshots, Run.result, Run.events,
    InitRequestController, StartRequestController, IsStarted, initCNS,
    getNodeNetConfigDirect, getAllPods, ReconcileNCState, Lock, Unlock,
    mbind, M_bind, Run.defer, Run.bind, Run.get, Run.emit, Run.modify,
    Run.ret, Run.stop; simpl.

(** The classification returns or panics; it never exits or blocks. *)
Lemma isNotDefined_returns_or_panics err :
  (∃ b, isNotDefined err = Returns b) ∨ isNotDefined err = Panics.
Proof. unfold isNotDefined. repeat case_match; eauto. Qed.

Ltac absurd_classification :=
  match goal with
  | Hc : isNotDefined ?e = _ |- _ =>
      destruct (isNotDefined_returns_or_panics e) as [[? ?] | ?]; congruence
  end.

(** When the resource has network containers, the status translates and
    the pods can be listed, [initCNS] reads, translates, lists the pods of
    the node in all namespaces and pushes the translated request with the
    pod map of those pods and the scaler and spec of the resource, once;
    it returns what the push returns. *)
Theorem initCNS_pushes_request_and_pods
    (env : collaborators) (rc : requestController)
    (cfg : nnc.NodeNetworkConfig)
    (ncRequest : cns_CreateNetworkContainerRequest) (pods : corev1.PodList) :
  directCRDClient_Get env (nodeName rc) k8sNamespace crdTypeName = (Some cfg, None) →
  nnc.NetworkContainers (nnc.Status cfg) ≠ [] →
  CRDStatusToNCRequest env (nnc.Status cfg) = (ncRequest, None) →
  directAPIClient_ListPods env allNamespaces (nodeName rc) = (Some pods, None) →
  Run.run (initCNS env) rc =
    (Run.mkMachine rc
       [(EvDirectCRDGet (nodeName rc) k8sNamespace crdTypeName, rc);
        (EvCRDStatusToNCRequest, rc);
        (EvListPods allNamespaces (nodeName rc), rc);
        (EvReconcileNCState (Some ncRequest)
           (podInfoByIP_of (corev1.Items pods))
           (nnc.Scaler (nnc.Status cfg)) (nnc.Spec cfg), rc)],
     Returns (CNSClient_ReconcileNCState env (Some ncRequest)
                (podInfoByIP_of (corev1.Items pods))
                (nnc.Scaler (nnc.Status cfg)) (nnc.Spec cfg))).
Proof.
  intros Hget Hnc Htr Hpods. run_method. rewrite Hget. simpl.
  destruct (nnc.NetworkContainers (nnc.Status cfg)) as [|c l]; [done |].
  simpl. rewrite Htr. simpl. rewrite Hpods. done.
Qed.

(** When the status does not translate, or it translates and the pods
    cannot be listed, [initCNS] returns that error and pushes nothing:
    [ReconcileNCState] is not called. *)
Theorem initCNS_aborts_without_push
    (env : collaborators) (rc : requestController)
    (cfg : nnc.NodeNetworkConfig) (err : error) :
  directCRDClient_Get env (nodeName rc) k8sNamespace crdTypeName = (Some cfg, None) →
  nnc.NetworkContainers (nnc.Status cfg) ≠ [] →
  (CRDStatusToNCRequest env (nnc.Status cfg)).2 = Some err
  ∨ ((CRDStatusToNCRequest env (nnc.Status cfg)).2 = None ∧
     (directAPIClient_ListPods env allNamespaces (nodeName rc)).2 = Some err) →
  Run.result (Run.run (initCNS env) rc) = Returns (Some err) ∧
  filter (λ e, is_reconcile e = true) (Run.trace (Run.run (initCNS env) rc)) = [].
Proof.
  intros Hget Hnc Hfail. run_method. rewrite Hget. simpl.
  destruct (nnc.NetworkContainers (nnc.Status cfg)) as [|c l]; [done |].
  simpl.
  destruct (CRDStatusToNCRequest env (nnc.Status cfg)) as [req [e |]];
    simpl in *.
  - destruct Hfail as [[= ->] | [[=] _]]. done.
  - destruct Hfail as [[=] | [_ Hl]].
    destruct (directAPIClient_ListPods env allNamespaces (nodeName rc))
      as [p [e |]]; simpl in *; [| done].
    injection Hl as ->. done.
Qed.

(** When the direct read fails with a "kind not defined" error, cold start
    ends the process with exit code 1 right after the read: nothing is
    pushed, [initialized] is not set, and (no deferred call runs on
    [os.Exit]) the mutex is still held. *)
Theorem InitRequestController_exits_when_kind_not_defined
    (env : collaborators) (rc : requestController)
    (cfg : option nnc.NodeNetworkConfig) (err : error) :
  lock rc = false →
  directCRDClient_Get env (nodeName rc) k8sNamespace crdTypeName = (cfg, Some err) →
  isNotDefined (Some err) = Returns true →
  Run.run (InitRequestController env) rc =
    (Run.mkMachine (set_lock true rc)
       [(EvLock, set_lock true rc);
        (EvDirectCRDGet (nodeName rc) k8sNamespace crdTypeName, set_lock true rc)],
     Exits 1).
Proof.
  destruct rc as [n i s l]. simpl. intros -> Hget Hnd.
  run_method. rewrite Hget. simpl. rewrite Hnd. done.
Qed.

(** Whatever the collaborators answer, a run of [initCNS] leaves the
    controller struct as it was, begins with the one direct read of the
    node's resource in kube-system (there is no second read), calls
    [ReconcileNCState] at most once, and touches neither the mutex nor
    the manager. *)
Theorem initCNS_trace_shape (env : collaborators) (rc : requestController) :
  Run.ctl (fst (Run.run (initCNS env) rc)) = rc
  ∧ filter (λ e, is_direct_read e = true) (Run.trace (Run.run (initCNS env) rc))
      = [EvDirectCRDGet (nodeName rc) "kube-system" "nodenetworkconfigs"]
  ∧ head (Run.trace (Run.run (initCNS env) rc))
      = Some (EvDirectCRDGet (nodeName rc) "kube-system" "nodenetworkconfigs")
  ∧ (length (filter (λ e, is_reconcile e = true)
               (Run.trace (Run.run (initCNS env) rc))) ≤ 1)%nat
  ∧ filter (λ e, is_mutex_or_manager e = true)
      (Run.trace (Run.run (initCNS env) rc)) = [].
Proof.
  run_method.
  repeat (case_match; simplify_eq; simpl; try done);
    repeat split; try done; simpl; lia.
Qed.

Lemma InitRequestController_cases
    (env : collaborators) (rc : requestController) :
  lock rc = false →
  match Run.result (Run.run (InitRequestController env) rc) with
  | Returns None =>
      Run.ctl (fst (Run.run (InitRequestController env) rc))
      = set_initialized true rc
  | Returns (Some _) | Panics =>
      Run.ctl (fst (Run.run (InitRequestController env) rc)) = rc
  | Exits code =>
      code = 1%Z ∧
      Run.ctl (fst (Run.run (InitRequestController env) rc)) = set_lock true rc
  | Blocks => False
  end.
Proof.
  destruct rc as [n i s l]. simpl. intros ->.
  unfold Run.run, Run.result, InitRequestController, Lock, Unlock,
    mbind, M_bind, Run.defer, Run.bind, Run.get, Run.emit, Run.modify,
    Run.ret, Run.stop. simpl.
  pose proof (LifecycleFacts.initCNS_keeps_controller env
    (Run.mkMachine (set_lock true (mkRequestController n i s false))
       [(EvLock, set_lock true (mkRequestController n i s false))]))
    as Hkeep.
  assert (∀ code, snd (initCNS env
    (Run.mkMachine (set_lock true (mkRequestController n i s false))
       [(EvLock, set_lock true (mkRequestController n i s false))]))
      = Exits code → code = 1%Z) as Hcode.
  { intros code. run_method.
    repeat (case_match; simplify_eq; simpl; try done);
      try (by intros [= <-]); absurd_classification. }
  assert (snd (initCNS env
    (Run.mkMachine (set_lock true (mkRequestController n i s false))
       [(EvLock, set_lock true (mkRequestController n i s false))]))
      ≠ Blocks) as Hblocks.
  { run_method.
    repeat (case_match; simplify_eq; simpl; try done); absurd_classification. }
  unfold set_lock, set_initialized in *. simpl in *.
  destruct (initCNS env _) as [[c lg] [[e |] | code | |]];
    simpl in *; subst c; simpl; try done.
  split; [by apply Hcode | done].
Qed.

(** The ways [InitRequestController] can end on a free mutex.  Returned
    nil: [initialized] is set and nothing else changed.  Returned an
    error, or panicked: the struct is as before (the deferred unlock ran).
    Exited: with code 1 and the mutex held.  It never blocks, and never
    writes [Started]. *)
Theorem InitRequestController_outcome
    (env : collaborators) (rc : requestController) :
  lock rc = false →
  match Run.result (Run.run (InitRequestController env) rc) with
  | Returns None =>
      Run.ctl (fst (Run.run (InitRequestController env) rc))
      = set_initialized true rc
  | Returns (Some _) | Panics =>
      Run.ctl (fst (Run.run (InitRequestController env) rc)) = rc
  | Exits code =>
      code = 1%Z ∧
      Run.ctl (fst (Run.run (InitRequestController env) rc)) = set_lock true rc
  | Blocks => False
  end.
Proof. apply InitRequestController_cases. Qed.

(** A cold start that returned an error leaves the controller
    uninitialized: a following [StartRequestController] is refused and
    the manager is not started. *)
Theorem failed_init_keeps_start_refused
    (env : collaborators) (rc : requestController) (err : error) :
  lock rc = false → initialized rc = false →
  Run.result (Run.run (InitRequestController env) rc) = Returns (Some err) →
  Run.result
    (Run.run (StartRequestController env)
       (Run.ctl (fst (Run.run (InitRequestController env) rc))))
  = Returns (Some not_initialized_error)
  ∧ filter (λ e, is_mutex_or_manager e = true)
      (Run.trace
         (Run.run (StartRequestController env)
            (Run.ctl (fst (Run.run (InitRequestController env) rc)))))
    = [EvLock; EvUnlock].
Proof.
  intros Hfree Hinit Hres.
  pose proof (InitRequestController_cases env rc Hfree) as Hout.
  rewrite Hres in Hout. rewrite Hout.
  rewrite (LifecycleFacts.StartRequestController_refused env rc Hfree Hinit).
  done.
Qed.

End Facts.

Import kubecontroller Samples MoreSamples.
#[local] Existing Instance sample_types.

Lemma initCNS_pushes_request_and_pods_witness :
  Run.run (initCNS (sample_env (Some one_container_config, None) None)) fresh_rc =
    (Run.mkMachine fresh_rc
       [(EvDirectCRDGet "node-0" "kube-system" "nodenetworkconfigs", fresh_rc);
        (EvCRDStatusToNCRequest, fresh_rc);
        (EvListPods "" "node-0", fresh_rc);
        (EvReconcileNCState (Some ["nc-0"])
           (Some {[ "10.244.1.2" := cns.mkKubernetesPodInfo "web" "default" ]})
           8%Z 16%Z, fresh_rc)],
     Returns None).
Proof.
  apply (initCNS_pushes_request_and_pods
           (sample_env (Some one_container_config, None) None) fresh_rc
           one_container_config ["nc-0"]
           (corev1.mkPodList [host_pod; container_pod]));
    [reflexivity | discriminate | reflexivity | reflexivity].
Defined.

Lemma initCNS_aborts_without_push_witness :
  Run.result (Run.run (initCNS (failing_translation refused_error)) fresh_rc)
  = Returns (Some refused_error).
Proof.
  apply (initCNS_aborts_without_push (failing_translation refused_error)
           fresh_rc one_container_config refused_error);
    [reflexivity | discriminate | left; reflexivity].
Defined.

Lemma InitRequestController_exits_when_kind_not_defined_witness :
  Run.result
    (Run.run (InitRequestController
                (sample_env (None, Some kind_not_defined_error) None)) fresh_rc)
  = Exits 1.
Proof.
  rewrite (InitRequestController_exits_when_kind_not_defined
             (sample_env (None, Some kind_not_defined_error) None) fresh_rc
             None kind_not_defined_error); reflexivity.
Defined.

Lemma InitRequestController_outcome_witness :
  Run.ctl (fst (Run.run (InitRequestController
                           (sample_env (Some empty_config, None) None))
                  fresh_rc))
  = set_initialized true fresh_rc.
Proof.
  apply (InitRequestController_outcome
           (sample_env (Some empty_config, None) None) fresh_rc eq_refl).
Defined.

Lemma failed_init_keeps_start_refused_witness :
  Run.result
    (Run.run (StartRequestController (failing_reconcile refused_error))
       (Run.ctl (fst (Run.run (InitRequestController
                                 (failing_reconcile refused_error)) fresh_rc))))
  = Returns (Some not_initialized_error).
Proof.
  apply (failed_init_keeps_start_refused (failing_reconcile refused_error)
           fresh_rc refused_error); reflexivity.
Defined.

End ColdStartMore.

(** ** Starting, and asking whether started *)

Module LifecycleMore.
Section Facts.
Context `{ResourceTypes}.
Import kubecontroller Vocabulary.

#[local] Arguments isNotDefined : simpl never.
#[local] Arguments multitenantoperator.isNotDefined : simpl never.

Ltac run_method :=
  unfold Run.run, Run.trace, Run.snapshots, Run.result, Run.events,
    InitRequestController, StartRequestController, IsStarted, initCNS,
    getNodeNetConfigDirect, getAllPods, ReconcileNCState, Lock, Unlock,
    multitenantoperator.StartMultiTenantController,
    multitenantoperator.IsStarted,
    multitenantoperator.Lock, multitenantoperator.Unlock,
    mbind, M_bind, Run.defer, Run.bind, Run.get, Run.emit, Run.modify,
    Run.ret, Run.stop; simpl.

Lemma StartRequestController_cases
    (env : collaborators) (rc : requestController) :
  lock rc = false → initialized rc = true →
  Run.result (Run.run (StartRequestController env) rc)
    = end_of_start isNotDefined (mgr_Start env)
  ∧ Run.ctl (fst (Run.run (StartRequestController env) rc))
    = set_Started true rc.
Proof.
  destruct rc as [n i s l]. simpl. intros -> ->. run_method.
  unfold end_of_start.
  repeat (case_match; simplify_eq; simpl; try done).
Qed.

(** How the classification of the manager's error ends a start method,
    case by case; both controllers classify alike. *)
Lemma end_of_start_classified (answer : option error) :
  (answer = None → end_of_start isNotDefined answer = Returns None)
  ∧ (∀ s, answer = Some (errorString s) →
       end_of_start isNotDefined answer = Returns answer)
  ∧ (∀ st, answer = Some (StatusError st) → metav1.Details st = None →
       end_of_start isNotDefined answer = Panics)
  ∧ (∀ st d, answer = Some (StatusError st) → metav1.Details st = Some d →
       Stated.unexpected_response (metav1.Causes d) →
       apierrors.IsNotFound answer = true →
       end_of_start isNotDefined answer = Exits 1)
  ∧ (∀ st d, answer = Some (StatusError st) → metav1.Details st = Some d →
       ¬ (Stated.unexpected_response (metav1.Causes d) ∧
          apierrors.IsNotFound answer = true) →
       end_of_start isNotDefined answer = Returns answer)
  ∧ end_of_start multitenantoperator.isNotDefined answer
    = end_of_start isNotDefined answer.
Proof.
  split; [by intros -> | split; [by intros s -> |]].
  split; [| split; [| split]].
  - intros st -> Hd. unfold end_of_start.
    by destruct (ClassifyFacts.isNotDefined_nil_details st Hd) as [-> _].
  - intros st d -> Hd Hu Hnf. unfold end_of_start.
    rewrite (ClassifyFacts.isNotDefined_status st d Hd).
    by rewrite (proj2 (ClassifyFacts.isNotDefined_loop_true _ _) (conj Hu Hnf)).
  - intros st d -> Hd Hno. unfold end_of_start.
    rewrite (ClassifyFacts.isNotDefined_status st d Hd).
    destruct (isNotDefined_loop _ _ _) eqn:El; [| done].
    by apply ClassifyFacts.isNotDefined_loop_true in El.
  - destruct answer as [err |]; [| done]. unfold end_of_start.
    by rewrite ClassifyFacts.isNotDefined_agree.
Qed.

(** On an initialized controller with a free mutex,
    [StartRequestController] leaves [Started] true and the mutex free
    however the manager ends: the flag is never taken back.  Its own end
    follows the manager's answer: nil is returned as nil; an error that
    is not a status error is returned as it is; a status error whose
    details carry an "unexpected server response" cause and which is a
    not-found error ends the process with code 1; a status error with
    details that is not of that kind is returned as it is; and a status
    error without details makes the method panic, in the classification
    of the error. *)
Theorem StartRequestController_outcome
    (env : collaborators) (rc : requestController) :
  lock rc = false → initialized rc = true →
  Run.ctl (fst (Run.run (StartRequestController env) rc))
    = set_Started true rc
  ∧ (mgr_Start env = None →
     Run.result (Run.run (StartRequestController env) rc) = Returns None)
  ∧ (∀ s, mgr_Start env = Some (errorString s) →
     Run.result (Run.run (StartRequestController env) rc)
     = Returns (Some (errorString s)))
  ∧ (∀ st, mgr_Start env = Some (StatusError st) →
     metav1.Details st = None →
     Run.result (Run.run (StartRequestController env) rc) = Panics)
  ∧ (∀ st d, mgr_Start env = Some (StatusError st) →
     metav1.Details st = Some d →
     Stated.unexpected_response (metav1.Causes d) →
     apierrors.IsNotFound (Some (StatusError st)) = true →
     Run.result (Run.run (StartRequestController env) rc) = Exits 1)
  ∧ (∀ st d, mgr_Start env = Some (StatusError st) →
     metav1.Details st = Some d →
     ¬ (Stated.unexpected_response (metav1.Causes d) ∧
        apierrors.IsNotFound (Some (StatusError st)) = true) →
     Run.result (Run.run (StartRequestController env) rc)
     = Returns (Some (StatusError st))).
Proof.
  intros Hl Hi.
  destruct (StartRequestController_cases env rc Hl Hi) as [-> ->].
  destruct (end_of_start_classified (mgr_Start env))
    as (Hnil & Hother & Hpanic & Hexit & Hret & _).
  split; [done |]. split; [done |].
  split; [intros s Hs; rewrite (Hother s Hs); by rewrite Hs |].
  split; [intros st Hs Hd; by rewrite (Hpanic st Hs Hd) |].
  split.
  - intros st d Hs Hd Hu Hnf. apply (Hexit st d Hs Hd Hu). by rewrite Hs.
  - intros st d Hs Hd Hno. rewrite (Hret st d Hs Hd); [by rewrite Hs |].
    by rewrite Hs.
Qed.

(** [IsStarted] on a free mutex returns the [Started] field and leaves
    the struct as it was; called after a run of
    [StartRequestController], it answers true exactly when that start was
    not refused, that is when the controller was initialized (or was
    started before). *)
Theorem IsStarted_after_start
    (env : collaborators) (rc : requestController) :
  lock rc = false →
  Run.run IsStarted rc =
    (Run.mkMachine rc [(EvLock, set_lock true rc); (EvUnlock, rc)],
     Returns (Started rc))
  ∧ Run.result
      (Run.run IsStarted
         (Run.ctl (fst (Run.run (StartRequestController env) rc))))
    = Returns (initialized rc || Started rc).
Proof.
  destruct rc as [n i s l]. simpl. intros ->. split; [done |].
  destruct i.
  - destruct (StartRequestController_cases env
                (mkRequestController n true s false) eq_refl eq_refl)
      as [_ ->]. done.
  - rewrite (LifecycleFacts.StartRequestController_refused env
               (mkRequestController n false s false) eq_refl eq_refl).
    done.
Qed.

(** [StartMultiTenantController] has no gate: on a free mutex it always
    sets [Started] under the mutex, releases it and starts the manager,
    and [IsStarted] answers true afterwards, however the manager ends.
    Its own end follows the manager's answer as in the request
    controller: nil, the error itself, exit code 1 for a not-found
    status error with an "unexpected server response" cause, and a panic
    for a status error without details. *)
Theorem StartMultiTenantController_outcome
    (mgr_Start : option error)
    (mtc : multitenantoperator.multiTenantController) :
  multitenantoperator.lock mtc = false →
  Run.snapshots
    (Run.run (multitenantoperator.StartMultiTenantController mgr_Start) mtc)
    = [(EvLock, multitenantoperator.set_lock true mtc);
       (EvUnlock, multitenantoperator.set_Started true mtc);
       (EvMgrStart, multitenantoperator.set_Started true mtc)]
  ∧ Run.result
      (Run.run multitenantoperator.IsStarted
         (Run.ctl (fst (Run.run
            (multitenantoperator.StartMultiTenantController mgr_Start) mtc))))
    = Returns true
  ∧ (mgr_Start = None →
     Run.result
       (Run.run (multitenantoperator.StartMultiTenantController mgr_Start) mtc)
     = Returns None)
  ∧ (∀ s, mgr_Start = Some (errorString s) →
     Run.result
       (Run.run (multitenantoperator.StartMultiTenantController mgr_Start) mtc)
     = Returns (Some (errorString s)))
  ∧ (∀ st, mgr_Start = Some (StatusError st) →
     metav1.Details st = None →
     Run.result
       (Run.run (multitenantoperator.StartMultiTenantController mgr_Start) mtc)
     = Panics)
  ∧ (∀ st d, mgr_Start = Some (StatusError st) →
     metav1.Details st = Some d →
     Stated.unexpected_response (metav1.Causes d) →
     apierrors.IsNotFound (Some (StatusError st)) = true →
     Run.result
       (Run.run (multitenantoperator.StartMultiTenantController mgr_Start) mtc)
     = Exits 1)
  ∧ (∀ st d, mgr_Start = Some (StatusError st) →
     metav1.Details st = Some d →
     ¬ (Stated.unexpected_response (metav1.Causes d) ∧
        apierrors.IsNotFound (Some (StatusError st)) = true) →
     Run.result
       (Run.run (multitenantoperator.StartMultiTenantController mgr_Start) mtc)
     = Returns (Some (StatusError st))).
Proof.
  intros Hl.
  assert (Run.result
            (Run.run (multitenantoperator.StartMultiTenantController mgr_Start)
               mtc)
          = end_of_start isNotDefined mgr_Start) as ->.
  { destruct (end_of_start_classified mgr_Start) as (_ & _ & _ & _ & _ & <-).
    destruct mtc as [n s l]. simpl in Hl. subst l. run_method.
    unfold end_of_start.
    repeat (case_match; simplify_eq; simpl; try done). }
  destruct (end_of_start_classified mgr_Start)
    as (Hnil & Hother & Hpanic & Hexit & Hret & _).
  split; [| split].
  - destruct mtc as [n s l]. simpl in Hl. subst l. run_method.
    repeat (case_match; simplify_eq; simpl; try done).
  - destruct mtc as [n s l]. simpl in Hl. subst l. run_method.
    repeat (case_match; simplify_eq; simpl; try done).
  - split; [done |].
    split; [intros s Hs; rewrite (Hother s Hs); by rewrite Hs |].
    split; [intros st Hs Hd; by rewrite (Hpanic st Hs Hd) |].
    split.
    + intros st d Hs Hd Hu Hnf. apply (Hexit st d Hs Hd Hu). by rewrite Hs.
    + intros st d Hs Hd Hno. rewrite (Hret st d Hs Hd); [by rewrite Hs |].
      by rewrite Hs.
Qed.

End Facts.

Import kubecontroller Samples MoreSamples.
#[local] Existing Instance sample_types.

Lemma StartRequestController_outcome_witness :
  Run.result
    (Run.run (StartRequestController
                (sample_env (Some empty_config, None)
                   (Some kind_not_defined_error))) initialized_rc)
  = Exits 1
  ∧ Run.result
      (Run.run (StartRequestController
                  (sample_env (Some empty_config, None)
                     (Some bare_not_found_error))) initialized_rc)
    = Panics.
Proof.
  split.
  - destruct (StartRequestController_outcome
                (sample_env (Some empty_config, None)
                   (Some kind_not_defined_error)) initialized_rc
                eq_refl eq_refl) as (_ & _ & _ & _ & Hexit & _).
    apply (Hexit
             (metav1.mkStatus "NotFound"
                (Some (metav1.mkStatusDetails
                   [metav1.mkStatusCause "UnexpectedServerResponse"
                      "404 page not found"])))
             (metav1.mkStatusDetails
                [metav1.mkStatusCause "UnexpectedServerResponse"
                   "404 page not found"]));
      [reflexivity | reflexivity | | reflexivity].
    eexists. split; [apply list_elem_of_here | reflexivity].
  - destruct (StartRequestController_outcome
                (sample_env (Some empty_config, None)
                   (Some bare_not_found_error)) initialized_rc
                eq_refl eq_refl) as (_ & _ & _ & Hpanic & _).
    by apply (Hpanic (metav1.mkStatus "NotFound" None)).
Defined.

Lemma IsStarted_after_start_witness :
  Run.result
    (Run.run IsStarted
       (Run.ctl (fst (Run.run
          (StartRequestController (sample_env (Some empty_config, None) None))
          fresh_rc))))
  = Returns false.
Proof.
  destruct (IsStarted_after_start
              (sample_env (Some empty_config, None) None) fresh_rc eq_refl)
    as [_ Hafter].
  rewrite Hafter. reflexivity.
Defined.

Lemma StartMultiTenantController_outcome_witness :
  Run.result
    (Run.run (multitenantoperator.StartMultiTenantController
                (Some refused_error)) fresh_mtc)
  = Returns (Some refused_error)
  ∧ Run.result
      (Run.run (multitenantoperator.StartMultiTenantController
                  (Some bare_not_found_error)) fresh_mtc)
    = Panics.
Proof.
  split.
  - destruct (StartMultiTenantController_outcome (Some refused_error)
                fresh_mtc eq_refl) as (_ & _ & _ & Hother & _).
    by apply Hother.
  - destruct (StartMultiTenantController_outcome (Some bare_not_found_error)
                fresh_mtc eq_refl) as (_ & _ & _ & _ & Hpanic & _).
    by apply (Hpanic (metav1.mkStatus "NotFound" None)).
Defined.

End LifecycleMore.

(** ** Pushing a spec *)

Module SpecUpdateFacts.
Section Facts.
Context `{ResourceTypes}.
Import kubecontroller SpecUpdate.

(** [UpdateCRDSpec] reads the node's resource in kube-system through the
    cached client.  When the read fails it returns that error and writes
    nothing.  Otherwise it writes back, once, the resource it read with
    the spec replaced by the given one and the status untouched, and
    returns what the write answers.  It takes no mutex and reads no
    lifecycle flag: the controller struct is left as it was. *)
Theorem UpdateCRDSpec_writes_only_spec
    (kube : KubeClient) (rc : requestController)
    (crdSpec : nnc_NodeNetworkConfigSpec) :
  Run.ctl (fst (Run.run (UpdateCRDSpec kube crdSpec) rc)) = rc
  ∧ match Get kube (mkObjectKey k8sNamespace (nodeName rc)) with
    | inr err =>
        Run.trace (Run.run (UpdateCRDSpec kube crdSpec) rc)
          = [EvGet (mkObjectKey "kube-system" (nodeName rc))]
        ∧ Run.result (Run.run (UpdateCRDSpec kube crdSpec) rc)
          = Returns (Some err)
    | inl cfg =>
        Run.trace (Run.run (UpdateCRDSpec kube crdSpec) rc)
          = [EvGet (mkObjectKey "kube-system" (nodeName rc));
             EvUpdate (nnc.mkNodeNetworkConfig crdSpec (nnc.Status cfg))]
        ∧ Run.result (Run.run (UpdateCRDSpec kube crdSpec) rc)
          = Returns (Update kube
                       (nnc.mkNodeNetworkConfig crdSpec (nnc.Status cfg)))
    end.
Proof.
  unfold Run.run, Run.trace, Run.result, Run.events, UpdateCRDSpec,
    getNodeNetConfig, updateNodeNetConfig, mbind, M_bind, Run.bind,
    Run.get, Run.emit, Run.ret, Run.stop. simpl.
  destruct (Get kube (mkObjectKey k8sNamespace (nodeName rc)))
    as [cfg | err]; simpl; [| done].
  destruct (Update kube _); done.
Qed.

End Facts.
End SpecUpdateFacts.

(** ** Constructing the controllers *)

Module ConstructionFacts.
Section Facts.
Context `{ResourceTypes}.
Import kubecontroller Construction.
Variable Error : error → string.

Lemma NewCrdRequestController_fresh s rc :
  NewCrdRequestController Error s = inl rc →
  rc = mkRequestController (Getenv_NODENAME s) false false false.
Proof.
  unfold NewCrdRequestController.
  repeat (case_match; simplify_eq; try done). by intros [= <-].
Qed.

(** [NewCrdRequestController] returns a controller exactly when the
    logger is initialized, NODENAME is set and not empty, and every call
    it makes answers nil; the controller then carries that node name, is
    neither initialized nor started, and its mutex is free. *)
Theorem NewCrdRequestController_succeeds_iff (s : surroundings) :
  ((∃ rc, NewCrdRequestController Error s = inl rc) ↔
     logger_Log s = true ∧ Getenv_NODENAME s ≠ "" ∧ all_calls_succeed s)
  ∧ (∀ rc, NewCrdRequestController Error s = inl rc →
           rc = mkRequestController (Getenv_NODENAME s) false false false).
Proof.
  split; [| apply NewCrdRequestController_fresh].
  unfold NewCrdRequestController, all_calls_succeed.
  destruct s as [lg nn a b c d e f]; simpl.
  destruct lg; simpl; [| split; [intros [? [=]] | intros [[=] _]]].
  destruct (String.eqb_spec nn "") as [-> | Hnn];
    [split; [intros [? [=]] | intros (_ & ? & _); done] |].
  destruct a, b, c, d, e, f; simpl;
    (split; [intros [? Heq]; try discriminate; done
            | intros (_ & _ & Ha & Hb & Hc & Hd & He & Hf);
              try discriminate; by eexists]).
Qed.

(** [NewMultiTenantController] returns a controller exactly when the
    logger is initialized, NODENAME is set and not empty, the two schemes
    register, the manager is made and the reconciler is set up; it makes
    no direct client, and the controller it returns is not started. *)
Theorem NewMultiTenantController_succeeds_iff (s : surroundings) :
  ((∃ mtc, NewMultiTenantController s = inl mtc) ↔
     logger_Log s = true ∧ Getenv_NODENAME s ≠ "" ∧
     clientgoscheme_AddToScheme s = None ∧ crd_AddToScheme s = None ∧
     ctrl_NewManager s = None ∧ SetupWithManager s = None)
  ∧ (∀ mtc, NewMultiTenantController s = inl mtc →
       mtc = multitenantoperator.mkMultiTenantController
               (Getenv_NODENAME s) false false).
Proof.
  unfold NewMultiTenantController.
  destruct s as [lg nn a b c d e f]; simpl.
  destruct lg; simpl;
    [| split; [split; [intros [? [=]] | intros [[=] _]] | intros ? [=]]].
  destruct (String.eqb_spec nn "") as [-> | Hnn];
    [split; [split; [intros [? [=]] | intros (_ & ? & _); done]
            | intros ? [=]] |].
  destruct a, b, e, f; simpl;
    (split; [split; [intros [? Heq]; try discriminate; done
                    | intros (_ & _ & Ha & Hb & He & Hf);
                      try discriminate; by eexists]
            | intros ? [=]; done]).
Qed.

(** A controller just built by [NewCrdRequestController] cannot be
    started: [StartRequestController] returns its error without starting
    the manager, and [IsStarted] answers false, until a cold start has
    succeeded. *)
Theorem fresh_controller_is_refused
    (s : surroundings) (env : collaborators) (rc : requestController) :
  NewCrdRequestController Error s = inl rc →
  Run.run (StartRequestController env) rc =
    (Run.mkMachine rc [(EvLock, set_lock true rc); (EvUnlock, rc)],
     Returns (Some not_initialized_error))
  ∧ Run.result (Run.run IsStarted rc) = Returns false.
Proof.
  intros Hnew. apply NewCrdRequestController_fresh in Hnew as ->. done.
Qed.

End Facts.

Import kubecontroller Construction Samples MoreSamples.
#[local] Existing Instance sample_types.

Lemma fresh_controller_is_refused_witness :
  Run.result
    (Run.run (StartRequestController (sample_env (Some empty_config, None) None))
       (mkRequestController "node-0" false false false))
  = Returns (Some not_initialized_error).
Proof.
  destruct (fresh_controller_is_refused (λ _, "error") sample_surroundings
              (sample_env (Some empty_config, None) None)
              (mkRequestController "node-0" false false false) eq_refl)
    as [Hrun _].
  rewrite Hrun. reflexivity.
Defined.

End ConstructionFacts.

(** ** The classifier, further *)

Module FilterMore.
Import Filter Samples.

Lemma filter_snd {A} (P : A → Prop) `{!∀ x, Decision (P x)}
    (l : list (string * A)) :
  filter P (l.*2) = (filter (λ kv, P kv.2) l).*2.
Proof.
  induction l as [|[k v] l IH]; [done |].
  rewrite fmap_cons. cbn [snd].
  destruct (decide (P v)) as [Hp | Hp].
  - rewrite (filter_cons_True P v (l.*2) Hp).
    rewrite (filter_cons_True (λ kv, P kv.2) (k, v) l Hp).
    rewrite fmap_cons. by rewrite IH.
  - rewrite (filter_cons_False P v (l.*2) Hp).
    by rewrite (filter_cons_False (λ kv, P kv.2) (k, v) l Hp).
Qed.

Lemma matchesAny_app v (S1 S2 : list IPConfigStatePredicate) :
  matchesAnyIPConfigState v (S1 ++ S2) =
  matchesAnyIPConfigState v S1 || matchesAnyIPConfigState v S2.
Proof.
  induction S1 as [|p S1 IH]; simpl; [done |]. by destruct (p v).
Qed.

(** The classifier returns each matching entry of the map once, however
    many of the predicates it satisfies: the result is the values of the
    matching entries, in the order in which the entries are visited; it
    has as many values as the map has matching entries; it is a sublist
    of the visited values and never longer than the map; and listing
    every predicate twice changes nothing. *)
Theorem MatchAnyIPConfigState_once_per_entry
    (M : gmap string IPConfigurationStatus)
    (order : list (string * IPConfigurationStatus))
    (S : list IPConfigStatePredicate) :
  range_of M order →
  MatchAnyIPConfigState M order S
    = (filter (λ kv : string * IPConfigurationStatus,
                 matchesAnyIPConfigState kv.2 S = true) order).*2
  ∧ length (MatchAnyIPConfigState M order S)
    = size (filter (λ kv : string * IPConfigurationStatus,
                      matchesAnyIPConfigState kv.2 S = true) M)
  ∧ MatchAnyIPConfigState M order S `sublist_of` order.*2
  ∧ (length (MatchAnyIPConfigState M order S) ≤ size M)%nat
  ∧ MatchAnyIPConfigState M order (S ++ S) = MatchAnyIPConfigState M order S.
Proof.
  intros Hr.
  rewrite !(FilterFacts.MatchAnyIPConfigState_filter M order _ Hr).
  split; [| split; [| split; [| split]]].
  - by rewrite (filter_snd (λ v, matchesAnyIPConfigState v S = true) order).
  - rewrite (filter_snd (λ v, matchesAnyIPConfigState v S = true) order).
    rewrite length_fmap. unfold range_of in Hr. rewrite Hr.
    rewrite map_filter_alt.
    rewrite <- length_map_to_list.
    rewrite map_to_list_to_map; [done |].
    eapply sublist_NoDup; [apply (NoDup_fst_map_to_list M) |].
    apply fmap_sublist, sublist_filter.
  - apply sublist_filter.
  - etrans; [apply length_filter |].
    rewrite length_fmap. unfold range_of in Hr. rewrite Hr.
    by rewrite length_map_to_list.
  - apply list_filter_iff. intros v. rewrite matchesAny_app.
    by destruct (matchesAnyIPConfigState v S).
Qed.

(** When exactly one entry of the map matches, the result is that one
    value whatever order the map is visited in (what the package's own
    test expects of a map with one status per state). *)
Theorem MatchAnyIPConfigState_unique_match
    (M : gmap string IPConfigurationStatus)
    (order : list (string * IPConfigurationStatus))
    (S : list IPConfigStatePredicate)
    (k : string) (v : IPConfigurationStatus) :
  range_of M order →
  M !! k = Some v →
  matchesAnyIPConfigState v S = true →
  (∀ k' v', M !! k' = Some v' → matchesAnyIPConfigState v' S = true → k' = k) →
  MatchAnyIPConfigState M order S = [v].
Proof.
  intros Hr Hk Hv Huniq.
  rewrite (FilterFacts.MatchAnyIPConfigState_filter M order S Hr).
  rewrite (filter_snd (λ v, matchesAnyIPConfigState v S = true) order).
  assert (filter (λ kv : string * IPConfigurationStatus,
                    matchesAnyIPConfigState kv.2 S = true) order = [(k, v)])
    as ->; [| done].
  apply Permutation_singleton_r, NoDup_Permutation.
  - apply NoDup_filter. unfold range_of in Hr. rewrite Hr.
    apply NoDup_map_to_list.
  - apply NoDup_singleton.
  - intros [k' v']. rewrite list_elem_of_filter, list_elem_of_singleton.
    rewrite (range_of_lookup M order k' v' Hr). simpl. split.
    + intros [Hm Hlk]. assert (k' = k) as -> by by apply (Huniq k' v').
      congruence.
    + intros [= -> ->]. done.
Qed.

(** Classifying by a list of states: a value is returned exactly when it
    is in the map and its state is one of the listed states that the
    classifier knows; a listed state outside the four is matched by
    nothing, even if a value carries it. *)
Theorem MatchAnyIPConfigState_for_states
    (M : gmap string IPConfigurationStatus)
    (order : list (string * IPConfigurationStatus))
    (states : list IPConfigState) :
  range_of M order →
  ∀ v, v ∈ MatchAnyIPConfigState M order (PredicatesForStates states) ↔
       (∃ k, M !! k = Some v) ∧ State v ∈ states ∧ known (State v) = true.
Proof.
  intros Hr v.
  rewrite (FilterFacts.MatchAnyIPConfigState_filter M order _ Hr).
  rewrite list_elem_of_filter, FilterFacts.matchesAny_spec, list_elem_of_fmap.
  unfold PredicatesForStates. rewrite FilterFacts.fold_predicates_step. simpl.
  split.
  - intros [(p & Hp & Hpv) ([k v'] & -> & Hin)]. simpl in *.
    apply list_elem_of_fmap in Hp as (s & -> & Hs).
    apply list_elem_of_In, filter_In in Hs as [Hs Hknown].
    apply FilterFacts.ipConfigStatePredicate_spec in Hpv. subst s.
    split; [exists k; by apply (range_of_lookup M order) |].
    split; [by apply list_elem_of_In | done].
  - intros ([k Hk] & Hs & Hknown). split.
    + exists (ipConfigStatePredicate (State v)). split.
      * apply list_elem_of_fmap. exists (State v). split; [done |].
        apply list_elem_of_In, filter_In. split; [by apply list_elem_of_In | done].
      * by apply FilterFacts.ipConfigStatePredicate_spec.
    + exists (k, v). split; [done |]. by apply (range_of_lookup M order).
Qed.

Lemma MatchAnyIPConfigState_once_per_entry_witness :
  MatchAnyIPConfigState sample_statuses (map_to_list sample_statuses)
    [ipConfigStatePredicate Available; ipConfigStatePredicate Available]
  = MatchAnyIPConfigState sample_statuses (map_to_list sample_statuses)
      [ipConfigStatePredicate Available]
  ∧ length (MatchAnyIPConfigState sample_statuses
              (map_to_list sample_statuses)
              [ipConfigStatePredicate Available]) = 1%nat.
Proof.
  destruct (MatchAnyIPConfigState_once_per_entry sample_statuses
              (map_to_list sample_statuses)
              [ipConfigStatePredicate Available])
    as (_ & Hlen & _ & _ & Htwice); [unfold range_of; reflexivity |].
  split; [exact Htwice |]. rewrite Hlen. reflexivity.
Defined.

Lemma MatchAnyIPConfigState_unique_match_witness :
  MatchAnyIPConfigState sample_statuses (map_to_list sample_statuses)
    [ipConfigStatePredicate Available]
  = [mkIPConfigurationStatus "available" Available].
Proof.
  apply (MatchAnyIPConfigState_unique_match sample_statuses
           (map_to_list sample_statuses) [ipConfigStatePredicate Available]
           "1" (mkIPConfigurationStatus "available" Available));
    [unfold range_of; reflexivity | reflexivity | reflexivity |].
  intros k' v' Hk' Hm.
  apply (elem_of_map_to_list sample_statuses) in Hk'.
  vm_compute in Hk'.
  repeat (apply elem_of_cons in Hk' as [[= -> ->] | Hk'];
          [first [reflexivity | discriminate] |]).
  by apply elem_of_nil in Hk'.
Defined.

Lemma MatchAnyIPConfigState_for_states_witness :
  mkIPConfigurationStatus "allocated" Allocated
    ∈ MatchAnyIPConfigState sample_statuses (map_to_list sample_statuses)
        (PredicatesForStates [Allocated; "bogus"]).
Proof.
  apply (MatchAnyIPConfigState_for_states sample_statuses
           (map_to_list sample_statuses) [Allocated; "bogus"]);
    [unfold range_of; reflexivity |].
  split; [exists "0"; reflexivity |].
  split; [left | reflexivity].
Defined.

End FilterMore.

(** ** The CNI state converter, further *)

Module CNIMore.
Import CNI Stated Samples MoreSamples.

Section Facts.
Variable IP_String : list Z → string.

Lemma cni_loop_app l1 l2 m :
  cni_loop IP_String (l1 ++ l2) m =
  match cni_loop IP_String l1 m with
  | Returns m1 => cni_loop IP_String l2 m1
  | o => o
  end.
Proof.
  revert m. induction l1 as [|[k ep] l1 IH]; intros m; simpl; [done |].
  destruct (IPAddresses ep); [done |]. apply IH.
Qed.

Lemma cni_loop_keeps l m m' key :
  cni_loop IP_String l m = Returns m' →
  (∀ kv, kv ∈ l → first_key IP_String kv.2 ≠ Some key) →
  m' !! key = m !! key.
Proof.
  revert m. induction l as [|[k ep] l IH]; intros m; simpl.
  - by intros [= ->].
  - intros Hrun Hother.
    assert (first_key IP_String ep ≠ Some key) as Hep.
    { apply (Hother (k, ep)). by left. }
    unfold first_key in Hep.
    destruct (IPAddresses ep) as [|first rest]; [done |].
    rewrite (IH _ Hrun); [| intros kv Hin; apply Hother; by right].
    rewrite lookup_insert_ne; [done |]. congruence.
Qed.

Lemma cni_last_visited order l1 k ep l2 key :
  order = l1 ++ (k, ep) :: l2 →
  first_key IP_String ep = Some key →
  (∀ kv, kv ∈ order → IPAddresses kv.2 ≠ []) →
  (∀ kv, kv ∈ l2 → first_key IP_String kv.2 ≠ Some key) →
  ∃ m, cni_loop IP_String order ∅ = Returns m ∧ m !! key = Some (info_of ep).
Proof.
  intros -> Hkey Hne Hlater.
  destruct (CNIFacts.cni_loop_returns IP_String (l1 ++ (k, ep) :: l2) ∅ Hne)
    as (m & Hrun & _).
  exists m. split; [done |].
  rewrite cni_loop_app in Hrun.
  destruct (cni_loop IP_String l1 ∅) as [m1 | | |]; try discriminate.
  simpl in Hrun. unfold first_key in Hkey.
  destruct (IPAddresses ep) as [|first rest]; [done |].
  injection Hkey as <-.
  rewrite (cni_loop_keeps _ _ _ _ Hrun Hlater).
  unfold info_of. by rewrite lookup_insert_eq.
Qed.

(** Among interfaces with the same first address, the one the range loop
    visits last owns the entry: if no interface visited after [endpoint]
    has its first address, the returned map holds the pod info of
    [endpoint] under that address. *)
Theorem cniStateToPodInfoByIP_last_visited_wins
    (state : State) (l1 l2 : list (string * PodNetworkInterfaceInfo))
    (k : string) (endpoint : PodNetworkInterfaceInfo) (key : string) :
  first_key IP_String endpoint = Some key →
  (∀ kv, kv ∈ l1 ++ (k, endpoint) :: l2 → IPAddresses kv.2 ≠ []) →
  (∀ kv, kv ∈ l2 → first_key IP_String kv.2 ≠ Some key) →
  ∃ m, cniStateToPodInfoByIP IP_String (Some state)
         (l1 ++ (k, endpoint) :: l2) = Returns m
       ∧ m !! key = Some (info_of endpoint).
Proof.
  intros Hkey Hne Hlater. simpl.
  by apply (cni_last_visited _ l1 k endpoint l2 key).
Qed.

(** The map a visiting order gives when all interfaces have an address
    and no two share their first one. *)
Lemma cni_distinct_lookup (state : State) order :
  range_of (ContainerInterfaces state) order →
  (∀ k ep, ContainerInterfaces state !! k = Some ep → IPAddresses ep ≠ []) →
  (∀ k1 k2 ep1 ep2,
     ContainerInterfaces state !! k1 = Some ep1 →
     ContainerInterfaces state !! k2 = Some ep2 →
     first_key IP_String ep1 = first_key IP_String ep2 → k1 = k2) →
  ∃ m, cni_loop IP_String order ∅ = Returns m ∧
    ∀ key info, m !! key = Some info ↔
      ∃ k ep, ContainerInterfaces state !! k = Some ep ∧
              first_key IP_String ep = Some key ∧ info = info_of ep.
Proof.
  intros Hr Hne Hdist.
  assert (∀ k ep, (k, ep) ∈ order ↔ ContainerInterfaces state !! k = Some ep)
    as Hvisit.
  { intros k ep. by apply range_of_lookup. }
  assert (∀ kv, kv ∈ order → IPAddresses kv.2 ≠ []) as Hne'.
  { intros [k ep] Hin. apply (Hne k). by apply Hvisit. }
  destruct (CNIFacts.cni_loop_returns IP_String order ∅ Hne')
    as (m & Hrun & _ & Hvals).
  exists m. split; [done |]. intros key info. split.
  - intros Hlk. destruct (Hvals key info Hlk) as [He | ([k ep] & Hin & Hk & ->)].
    + by rewrite lookup_empty in He.
    + exists k, ep. split; [by apply Hvisit | done].
  - intros (k & ep & Hlk & Hk & ->).
    apply Hvisit in Hlk as Hin.
    apply list_elem_of_split in Hin as (l1 & l2 & Hsplit).
    destruct (cni_last_visited order l1 k ep l2 key Hsplit Hk Hne')
      as (m' & Hrun' & Hm').
    { intros [k' ep'] Hin' Hk'. simpl in Hk'.
      assert (k' = k) as ->.
      { apply (Hdist k' k ep' ep); [| done | congruence].
        apply Hvisit. rewrite Hsplit. apply elem_of_app. right. by right. }
      assert (NoDup (order.*1)) as Hnd.
      { unfold range_of in Hr. rewrite Hr. apply NoDup_fst_map_to_list. }
      rewrite Hsplit, fmap_app, fmap_cons in Hnd.
      apply NoDup_app in Hnd as (_ & _ & Hnd).
      apply NoDup_cons in Hnd as [Hnotin _]. apply Hnotin.
      apply list_elem_of_fmap. by exists (k, ep'). }
    congruence.
Qed.

(** When every interface has an address and no two interfaces share
    their first address, the returned map does not depend on the order
    in which the range loop visits the interfaces, and every interface
    has its own entry in it. *)
Theorem cniStateToPodInfoByIP_order_independent
    (state : State) (order1 order2 : list (string * PodNetworkInterfaceInfo)) :
  range_of (ContainerInterfaces state) order1 →
  range_of (ContainerInterfaces state) order2 →
  (∀ k ep, ContainerInterfaces state !! k = Some ep → IPAddresses ep ≠ []) →
  (∀ k1 k2 ep1 ep2,
     ContainerInterfaces state !! k1 = Some ep1 →
     ContainerInterfaces state !! k2 = Some ep2 →
     first_key IP_String ep1 = first_key IP_String ep2 → k1 = k2) →
  cniStateToPodInfoByIP IP_String (Some state) order1
  = cniStateToPodInfoByIP IP_String (Some state) order2
  ∧ ∃ m, cniStateToPodInfoByIP IP_String (Some state) order1 = Returns m ∧
      ∀ k ep, ContainerInterfaces state !! k = Some ep →
        ∃ key, first_key IP_String ep = Some key ∧
               m !! key = Some (info_of ep).
Proof.
  intros Hr1 Hr2 Hne Hdist. simpl.
  destruct (cni_distinct_lookup state order1 Hr1 Hne Hdist) as (m1 & -> & H1).
  destruct (cni_distinct_lookup state order2 Hr2 Hne Hdist) as (m2 & -> & H2).
  split.
  - f_equal. apply map_eq. intros key.
    destruct (m1 !! key) as [info |] eqn:E1.
    + symmetry. apply H2. by apply H1.
    + destruct (m2 !! key) as [info |] eqn:E2; [| done].
      apply H2, H1 in E2. congruence.
  - exists m1. split; [done |]. intros k ep Hlk.
    specialize (Hne k ep Hlk). unfold first_key.
    destruct (IPAddresses ep) as [|first rest] eqn:Hep; [done |].
    exists (IP_String (IP first)). split; [done |].
    apply H1. exists k, ep. split; [done |]. split; [| done].
    unfold first_key. by rewrite Hep.
Qed.

(** [CNICNSInitializer] hands back the exec error and no provider when
    the CNI cannot be asked.  When the CNI answers, it always succeeds,
    whatever the state holds: for a state with an interface without
    address the failure comes later, as a panic of every call of the
    provider. *)
Theorem CNICNSInitializer_defers_failure
    (state : State) (k : string) (endpoint : PodNetworkInterfaceInfo) :
  ContainerInterfaces state !! k = Some endpoint →
  IPAddresses endpoint = [] →
  (∀ st err,
     CNIInit.CNICNSInitializer IP_String (st, Some err) = (None, Some err))
  ∧ ∃ provider,
      CNIInit.CNICNSInitializer IP_String (Some state, None)
      = (Some provider, None)
      ∧ ∀ order, range_of (ContainerInterfaces state) order →
                 provider order = Panics.
Proof.
  intros Hlk Hnil. split; [done |].
  eexists. split; [reflexivity |]. intros order Hr. simpl.
  apply CNIFacts.cni_loop_panics. exists (k, endpoint).
  split; [| done]. by apply (range_of_lookup (ContainerInterfaces state) order).
Qed.

End Facts.

Lemma cniStateToPodInfoByIP_last_visited_wins_witness :
  ∃ m, cniStateToPodInfoByIP sample_IP_String (Some sample_state)
         two_interfaces_one_address = Returns m
       ∧ m !! "10.244.1.2" = Some (NewPodInfo "" "ep-new" "new" "default").
Proof.
  apply (cniStateToPodInfoByIP_last_visited_wins sample_IP_String sample_state
           [("eth0", mkPodNetworkInterfaceInfo "old" "default" "ep-old" "c0"
                       [mkIPNet [10; 244; 1; 2]%Z [255; 255; 255; 0]%Z])] []
           "eth1"
           (mkPodNetworkInterfaceInfo "new" "default" "ep-new" "c1"
              [mkIPNet [10; 244; 1; 2]%Z [255; 255; 255; 0]%Z])
           "10.244.1.2").
  - reflexivity.
  - intros kv Hin.
    apply elem_of_cons in Hin as [-> | Hin]; [discriminate |].
    apply elem_of_cons in Hin as [-> | Hin]; [discriminate |].
    by apply elem_of_nil in Hin.
  - intros kv Hin. by apply elem_of_nil in Hin.
Defined.

Lemma cniStateToPodInfoByIP_order_independent_witness :
  cniStateToPodInfoByIP two_address_String (Some two_interface_state)
    web_then_db
  = cniStateToPodInfoByIP two_address_String (Some two_interface_state)
      db_then_web
  ∧ ∃ m, cniStateToPodInfoByIP two_address_String (Some two_interface_state)
           db_then_web = Returns m
         ∧ m !! "10.244.1.2" = Some (NewPodInfo "" "ep-web" "web" "default")
         ∧ m !! "10.244.1.3" = Some (NewPodInfo "" "ep-db" "db" "default").
Proof.
  assert (∀ k ep,
            ContainerInterfaces two_interface_state !! k = Some ep →
            (k, ep) = ("eth0", web_interface) ∨ (k, ep) = ("eth1", db_interface))
    as Hentries.
  { intros k ep Hlk. unfold two_interface_state in Hlk.
    cbn [ContainerInterfaces] in Hlk.
    apply lookup_insert_Some in Hlk as [[<- <-] | [_ Hlk]]; [by left |].
    apply lookup_singleton_Some in Hlk as [<- <-]. by right. }
  assert (∀ order, NoDup order →
            (∀ kv, kv ∈ order ↔
               kv = ("eth0", web_interface) ∨ kv = ("eth1", db_interface)) →
            range_of (ContainerInterfaces two_interface_state) order)
    as Hrange.
  { intros order Hnd Hin. unfold range_of.
    apply NoDup_Permutation; [done | apply NoDup_map_to_list |].
    intros [k ep]. rewrite elem_of_map_to_list, Hin. split.
    - intros [[= -> ->] | [= -> ->]]; reflexivity.
    - apply Hentries. }
  destruct (cniStateToPodInfoByIP_order_independent two_address_String
              two_interface_state db_then_web web_then_db)
    as [Heq (m & Hm & Hall)].
  - apply Hrange.
    + apply NoDup_cons. split; [| apply NoDup_singleton].
      rewrite list_elem_of_singleton. discriminate.
    + intros kv. unfold db_then_web.
      rewrite elem_of_cons, list_elem_of_singleton. tauto.
  - apply Hrange.
    + apply NoDup_cons. split; [| apply NoDup_singleton].
      rewrite list_elem_of_singleton. discriminate.
    + intros kv. unfold web_then_db.
      rewrite elem_of_cons, list_elem_of_singleton. tauto.
  - intros k ep Hlk.
    destruct (Hentries k ep Hlk) as [[= -> ->] | [= -> ->]]; discriminate.
  - intros k1 k2 ep1 ep2 H1 H2 Hkey.
    destruct (Hentries k1 ep1 H1) as [[= -> ->] | [= -> ->]];
      destruct (Hentries k2 ep2 H2) as [[= -> ->] | [= -> ->]];
      first [reflexivity | discriminate].
  - split; [by rewrite Heq |]. exists m. split; [exact Hm |].
    destruct (Hall "eth0" web_interface eq_refl) as (key1 & [= <-] & Hweb).
    destruct (Hall "eth1" db_interface eq_refl) as (key2 & [= <-] & Hdb).
    split; [exact Hweb | exact Hdb].
Defined.

Lemma CNICNSInitializer_defers_failure_witness :
  ∃ provider,
    CNIInit.CNICNSInitializer sample_IP_String
      (Some sample_state_no_address, None) = (Some provider, None)
    ∧ provider (map_to_list (ContainerInterfaces sample_state_no_address))
      = Panics.
Proof.
  destruct (CNICNSInitializer_defers_failure sample_IP_String
              sample_state_no_address "eth0"
              (mkPodNetworkInterfaceInfo "web" "default" "ep-eth0" "c0" [])
              eq_refl eq_refl) as [_ (provider & Hinit & Hcall)].
  exists provider. split; [exact Hinit |].
  apply Hcall. unfold range_of; reflexivity.
Defined.

End CNIMore.

(** ** Telemetry: the error code of a report *)

Module TelemetryFacts.
Import Telemetry.

Local Open Scope string_scope.

Lemma prefix_append (p s : string) :
  String.prefix p s = true ↔ ∃ post, s = p ++ post.
Proof.
  revert p. induction s as [|b s IH]; intros [|a p]; simpl.
  - split; [intros _; by exists "" | done].
  - split; [done | intros [post [=]]].
  - split; [intros _; by eexists | done].
  - destruct (Ascii.ascii_dec a b) as [-> | Hab].
    + rewrite IH. split.
      * intros [post ->]. by exists post.
      * intros [post [= ->]]. by exists post.
    + split; [done |]. intros [post [= -> _]]. done.
Qed.

Lemma string_from_code (post : string) :
  string_from 5 ("Code:" ++ post) = post.
Proof. reflexivity. Qed.

Lemma all_word_run (s : string) : all_word (word_run s) = true.
Proof.
  induction s as [|c s IH]; simpl; [done |].
  destruct (is_word c) eqn:E; simpl; [by rewrite E | done].
Qed.

Lemma no_tag_in_empty : ¬ has_code_tag "".
Proof. intros (pre & post & Heq). by destruct pre. Qed.

Lemma FindString_cases (s : string) :
  (codeRegex_FindString s = "" ∧ ¬ has_code_tag s)
  ∨ ∃ pre post, leftmost_tag s pre post ∧
                codeRegex_FindString s = "Code:" ++ word_run post.
Proof.
  induction s as [|c rest IH].
  - left. split; [done | apply no_tag_in_empty].
  - unfold codeRegex_FindString; fold codeRegex_FindString.
    destruct (String.prefix "Code:" (String c rest)) eqn:Hp.
    + right. apply prefix_append in Hp as [post Hpost].
      exists "", post. rewrite Hpost, string_from_code.
      split; [| done]. split; [done |]. intros; simpl; lia.
    + assert (¬ ∃ post, String c rest = "Code:" ++ post) as Hnp.
      { intros Hex. apply prefix_append in Hex. congruence. }
      destruct IH as [[Hnone Hno] | (pre & post & [Heq Hleft] & Hfind)].
      * left. split; [done |]. intros (pre' & post' & Heq').
        destruct pre' as [|c' pre'']; [by apply Hnp; exists post' |].
        injection Heq' as _ Heq'. apply Hno. by exists pre'', post'.
      * right. exists (String c pre), post. split; [| done]. split.
        -- simpl. by rewrite Heq.
        -- intros pre' post' Heq'.
           destruct pre' as [|c' pre'']; [exfalso; apply Hnp; by exists post' |].
           injection Heq' as _ Heq'. simpl.
           specialize (Hleft pre'' post' Heq'). lia.
Qed.

Lemma leftmost_tag_unique s pre1 post1 pre2 post2 :
  leftmost_tag s pre1 post1 → leftmost_tag s pre2 post2 → post1 = post2.
Proof.
  intros [H1 L1] [H2 L2].
  assert (String.length pre1 = String.length pre2) as Hlen.
  { pose proof (L1 pre2 post2 H2). pose proof (L2 pre1 post1 H1). lia. }
  clear L1 L2. subst s. revert pre2 Hlen H2.
  induction pre1 as [|c pre1 IH]; intros [|c2 pre2] Hlen Heq;
    simpl in *; try discriminate.
  - by injection Heq.
  - injection Heq as _ Heq. by apply (IH pre2); [lia |].
Qed.

Lemma word_run_length_pos (w : string) :
  Nat.ltb errorcodePrefix (String.length ("Code:" ++ w)) = true ↔ w ≠ "".
Proof.
  simpl. destruct w; simpl; split; done.
Qed.

(** A report message that is not a string makes the send loop panic.  A
    string message always becomes the report's [EventMessage], and never
    touches the time stamp or the UUID.  The [Errorcode] is either left
    as the report held it, or set to a non-empty run of word characters,
    and it is left when the message holds no "Code:" at all: a message
    without a code goes out with whatever code the report still holds. *)
Theorem record_message_keeps_stale_code
    (s : string) (report : CNSReport) :
  record_message OtherMessage report = Panics
  ∧ ∃ r, record_message (StringMessage s) report = Returns r
      ∧ EventMessage r = s
      ∧ Timestamp r = Timestamp report ∧ UUID r = UUID report
      ∧ (Errorcode r = Errorcode report
         ∨ (Errorcode r ≠ "" ∧ all_word (Errorcode r) = true))
      ∧ (¬ has_code_tag s → Errorcode r = Errorcode report).
Proof.
  split; [done |]. unfold record_message.
  eexists. split; [reflexivity |]. simpl.
  destruct (FindString_cases s)
    as [[-> Hno] | (pre & post & Hleft & ->)].
  - simpl. repeat split; try done. by left.
  - destruct (Nat.ltb errorcodePrefix (String.length ("Code:" ++ word_run post)))
      eqn:Hlen; simpl.
    + repeat split.
      * right. split; [by apply word_run_length_pos | apply all_word_run].
      * intros Hno. exfalso. apply Hno. destruct Hleft as [-> _].
        by exists pre, post.
    + repeat split; try done. by left.
Qed.

(** Only the leftmost "Code:" of a message counts.  When word characters
    follow it, the [Errorcode] becomes the longest run of them; when none
    does, the [Errorcode] is left as it was, even if a later "Code:" of
    the same message carries a code. *)
Theorem record_message_leftmost_code
    (s pre post : string) (report : CNSReport) :
  leftmost_tag s pre post →
  ∃ r, record_message (StringMessage s) report = Returns r
     ∧ Errorcode r =
         (if decide (word_run post = "") then Errorcode report
          else word_run post).
Proof.
  intros Hleft. unfold record_message. eexists. split; [reflexivity |].
  simpl.
  destruct (FindString_cases s)
    as [[_ Hno] | (pre' & post' & Hleft' & ->)].
  - exfalso. apply Hno. destruct Hleft as [-> _]. by exists pre, post.
  - rewrite (leftmost_tag_unique s pre' post' pre post Hleft' Hleft).
    destruct (decide (word_run post = "")) as [Hw | Hw].
    + rewrite Hw. done.
    + apply word_run_length_pos in Hw as Hlen. rewrite Hlen. done.
Qed.

Lemma record_message_leftmost_code_witness :
  ∃ r, record_message
         (StringMessage "Code: see Code:NotFound")
         (mkCNSReport "Timeout" "earlier" "t0" "id0") = Returns r
     ∧ Errorcode r = "Timeout".
Proof.
  apply (record_message_leftmost_code "Code: see Code:NotFound"
           "" " see Code:NotFound" (mkCNSReport "Timeout" "earlier" "t0" "id0")).
  split; [reflexivity |]. intros pre' post' _. simpl. lia.
Defined.

Example record_message_sets_code :
  record_message (StringMessage "failed, Code:NotFound: no such pod")
    (mkCNSReport "" "" "t0" "id0")
  = Returns (mkCNSReport "NotFound" "failed, Code:NotFound: no such pod"
               "t0" "id0").
Proof. reflexivity. Qed.

End TelemetryFacts.
